(** * Endpoint prober and fallback caller

    A shallow embedding of [src/test_endpoints.py] and
    [src/services/fallback_service.py], and the properties the specification
    states about them.

    Layout: [Py] holds the fragment of Python the two files use (strings,
    truthiness, insertion-ordered dicts, exceptions); [FallbackService] and
    [TestEndpoints] embed the two source files function by function;
    [FallbackContract] and [ProberContract] hold the vocabulary of the
    specification, [FallbackDetails] and [ProberDetails] what further
    properties are stated with, [FallbackExamples] and [ProberExamples] sample
    inputs; the modules whose names end in [Facts], [Spec] or [More] hold the
    lemmas and the theorems. *)

From Stdlib Require Import List NArith ZArith Bool Lia Ascii String.
From Stdlib Require Import DecimalString PrimFloat.
Import ListNotations.

Set Implicit Arguments.

(* ================================================================== *)
(** ** The Python fragment *)
(* ================================================================== *)

Module Py.

(** A Python [str] is a sequence of Unicode code points. *)
Definition char := N.
Definition str := list char.

(** An ASCII literal of the source, as a [str]. *)
Definition lit (s : string) : str := map N_of_ascii (list_ascii_of_string s).

Fixpoint str_eqb (a b : str) : bool :=
  match a, b with
  | [], [] => true
  | x :: a', y :: b' => N.eqb x y && str_eqb a' b'
  | _, _ => false
  end.

(** [str(n)] for an [int]. *)
Definition str_of_int (z : Z) : str := lit (NilZero.string_of_int (Z.to_int z)).

(** [c * n] for a one-character string [c]. *)
Definition str_repeat (c : char) (n : nat) : str := repeat c n.

(** [s[:n]]. *)
Definition slice_to (n : nat) (s : str) : str := firstn n s.

(** The code points [str.strip()] removes: CPython's [_PyUnicode_IsWhitespace]. *)
Definition isspace (c : char) : bool :=
  ((9 <=? c) && (c <=? 13) || (28 <=? c) && (c <=? 32)
   || (c =? 133) || (c =? 160) || (c =? 5760)
   || (8192 <=? c) && (c <=? 8202)
   || (c =? 8232) || (c =? 8233) || (c =? 8239) || (c =? 8287)
   || (c =? 12288))%N.

Fixpoint lstrip_by (drop : char -> bool) (s : str) : str :=
  match s with
  | [] => []
  | c :: s' => if drop c then lstrip_by drop s' else s
  end.

Fixpoint rstrip_by (drop : char -> bool) (s : str) : str :=
  match s with
  | [] => []
  | c :: s' =>
      match rstrip_by drop s' with
      | [] => if drop c then [] else [c]
      | kept => c :: kept
      end
  end.

(** [s.rstrip(chars)]: trailing characters that occur in [chars] are removed. *)
Definition rstrip (chars : str) (s : str) : str :=
  rstrip_by (fun c => existsb (N.eqb c) chars) s.

(** [s.strip()]: leading and trailing whitespace is removed. *)
Definition strip (s : str) : str := rstrip_by isspace (lstrip_by isspace s).

(** [sep in s] for a one-character string [sep]. *)
Definition contains (sep : char) (s : str) : bool := existsb (N.eqb sep) s.

(** [s.split(sep)] for a one-character separator: every occurrence splits,
    and the result is never empty. *)
Fixpoint split (sep : char) (s : str) : list str :=
  match s with
  | [] => [[]]
  | c :: s' =>
      if N.eqb c sep then [] :: split sep s'
      else match split sep s' with
           | piece :: pieces => (c :: piece) :: pieces
           | [] => [[c]]
           end
  end.

(** [s.split(sep, 1)]: only the first occurrence splits. *)
Fixpoint split1 (sep : char) (s : str) : list str :=
  match s with
  | [] => [[]]
  | c :: s' =>
      if N.eqb c sep then [[]; s']
      else match split1 sep s' with
           | piece :: pieces => (c :: piece) :: pieces
           | [] => [[c]]
           end
  end.

(** Truthiness of a value that is [None] or a [str]. *)
Definition truthy (v : option str) : bool :=
  match v with
  | None | Some [] => false
  | Some (_ :: _) => true
  end.

(** [all(xs)] over already evaluated truth values. *)
Definition all (xs : list bool) : bool := forallb (fun b => b) xs.

(** *** Dicts

    A [dict] keeps its keys in insertion order; assigning to a key that is
    already there replaces the value in place. *)
Definition dict (V : Type) := list (str * V).

Fixpoint dict_set {V} (d : dict V) (k : str) (v : V) : dict V :=
  match d with
  | [] => [(k, v)]
  | (k', v') :: d' =>
      if str_eqb k' k then (k', v) :: d' else (k', v') :: dict_set d' k v
  end.

(** A dict display [{k1: v1, ..., kn: vn}], the values already evaluated. *)
Definition dict_display {V} (entries : list (str * V)) : dict V :=
  fold_left (fun d kv => dict_set d (fst kv) (snd kv)) entries [].

(** [k in d]. *)
Definition dict_contains {V} (d : dict V) (k : str) : bool :=
  existsb (fun kv => str_eqb (fst kv) k) d.

Definition keys {V} (d : dict V) : list str := map fst d.
Definition values {V} (d : dict V) : list V := map snd d.
Definition len {V} (d : dict V) : Z := Z.of_nat (List.length d).

(** *** Exceptions

    What the handlers of the two files distinguish: the family of
    [requests.exceptions.RequestException], the other subclasses of
    [Exception], and what derives from [BaseException] only
    ([KeyboardInterrupt], [SystemExit]). *)
Inductive family := RequestExceptionFamily | ExceptionFamily | BaseExceptionFamily.

Record exception := { exc_family : family; exc_type : str; exc_str : str }.

(** [except requests.exceptions.RequestException]. *)
Definition isinstance_RequestException (e : exception) : bool :=
  match exc_family e with
  | RequestExceptionFamily => true
  | _ => false
  end.

(** [except Exception]. *)
Definition isinstance_Exception (e : exception) : bool :=
  match exc_family e with
  | RequestExceptionFamily | ExceptionFamily => true
  | BaseExceptionFamily => false
  end.

Inductive outcome (A : Type) :=
| Return (a : A)
| Raise (e : exception).
Arguments Return {A} a.
Arguments Raise {A} e.

Definition ValueError (msg : str) : exception :=
  {| exc_family := ExceptionFamily; exc_type := lit "ValueError"; exc_str := msg |}.

Definition IndexError (msg : str) : exception :=
  {| exc_family := ExceptionFamily; exc_type := lit "IndexError"; exc_str := msg |}.

(** [dict(pairs)] over an iterable of lists: every element must have length
    two, otherwise [ValueError]. *)
Fixpoint dict_update_seq (d : dict str) (pairs : list (list str)) : outcome (dict str) :=
  match pairs with
  | [] => Return d
  | [k; v] :: rest => dict_update_seq (dict_set d k v) rest
  | _ :: _ => Raise (ValueError (lit "dictionary update sequence element has the wrong length"))
  end.

Definition dict_of_pairs (pairs : list (list str)) : outcome (dict str) :=
  dict_update_seq [] pairs.

(** *** Computations

    A computation runs over a state [S] (what has been printed, logged and
    called so far) and either returns or raises; the state reached is kept in
    both cases, as effects that happened before an exception stay. *)
Definition M (S A : Type) := S -> outcome A * S.

Definition ret {S A} (a : A) : M S A := fun s => (Return a, s).

Definition raise {S A} (e : exception) : M S A := fun s => (Raise e, s).

Definition bind {S A B} (m : M S A) (k : A -> M S B) : M S B :=
  fun s =>
    match m s with
    | (Return a, s') => k a s'
    | (Raise e, s') => (Raise e, s')
    end.

(** [try: body  except <class> as e: handler]. *)
Definition try_except {S A} (body : M S A) (caught : exception -> bool)
    (handler : exception -> M S A) : M S A :=
  fun s =>
    match body s with
    | (Return a, s') => (Return a, s')
    | (Raise e, s') => if caught e then handler e s' else (Raise e, s')
    end.

(** [for x in xs: acc = body(acc, x)]. *)
Fixpoint for_each {S A X} (xs : list X) (acc : A) (body : A -> X -> M S A) : M S A :=
  match xs with
  | [] => ret acc
  | x :: xs' => bind (body acc x) (fun acc' => for_each xs' acc' body)
  end.

Declare Scope py_scope.
Delimit Scope py_scope with py.
Notation "x <- m ;; k" := (bind m (fun x => k))
  (at level 61, m at next level, right associativity) : py_scope.
Notation "m ;; k" := (bind m (fun _ => k))
  (at level 61, right associativity) : py_scope.

(** *** Auxiliary functions, used to state facts about the above *)

(** Absent, empty or whitespace only. *)
Definition is_blank (v : option str) : bool :=
  match v with
  | None => true
  | Some s => forallb isspace s
  end.

(** The part of [s] before the first separator. *)
Fixpoint take_until (sep : char) (s : str) : str :=
  match s with
  | [] => []
  | c :: s' => if N.eqb c sep then [] else c :: take_until sep s'
  end.

(** The key a two-element list contributes to [dict(pairs)]. *)
Definition pair_key (q : str) (p : list str) : bool :=
  match p with
  | k :: _ => str_eqb k q
  | [] => false
  end.

End Py.

(* ================================================================== *)
(** ** [src/services/fallback_service.py] *)
(* ================================================================== *)

Module FallbackService.
Import Py.
Local Open Scope py_scope.

(** The literals [0.7] and [0.95] denote, as in Python, the nearest binary64
    values. *)
#[local] Set Warnings "-inexact-float".

(** The request, as the keyword arguments of [chat.completions.create]. *)
Module Request.

Record part := { type : str; text : str }.

Record message := { role : str; content : list part }.

(** An optional keyword is [None] when the call does not pass it; [stop] is
    [Some None] when the call passes [stop=None]. *)
Record kwargs := {
  model : str;
  messages : list message;
  temperature : float;
  top_p : option float;
  frequency_penalty : option Z;
  presence_penalty : option Z;
  stop : option (option str);
  stream : bool
}.

End Request.

(** The completion object the endpoint answers with. *)
Module Response.

Record reply := { content : option str }.

Record choice := { message : reply }.

Record token_usage := {
  prompt_tokens : Z;
  completion_tokens : Z;
  total_tokens : Z
}.

Record completion := { choices : list choice; usage : option token_usage }.

End Response.

(** [llm_client]: what [chat.completions.create] does with a request, given
    the requests the client has served before; it answers or raises. *)
Record client := {
  create : list Request.kwargs -> Request.kwargs -> outcome Response.completion
}.

Inductive value :=
| VNone
| VStr (s : str)
| VInt (z : Z)
| VFloat (f : float).

Inductive log_entry :=
| Info (msg : str) (extra : dict value)
| Timing (operation : str) (elapsed : float) (detail : str).

(** What a call leaves behind: the requests sent to the endpoint, the log,
    and how often the clock was read. *)
Record state := {
  sent : list Request.kwargs;
  log : list log_entry;
  clock_reads : nat
}.

Definition initial : state := {| sent := []; log := []; clock_reads := 0 |}.

Section Calls.

(** [time.time()]: the value of the n-th reading. *)
Variable clock : nat -> float.

Definition time_time : M state float :=
  fun s =>
    (Return (clock (clock_reads s)),
     {| sent := sent s; log := log s; clock_reads := S (clock_reads s) |}).

Definition emit (entry : log_entry) : M state unit :=
  fun s =>
    (Return tt,
     {| sent := sent s; log := log s ++ [entry]; clock_reads := clock_reads s |}).

(** [logger.info(msg, extra=extra)]. *)
Definition logger_info (msg : str) (extra : dict value) : M state unit :=
  emit (Info msg extra).

(** Modelled from the spec: [utils.log_utils.log_timing] is not among the
    source files. The spec has it emit one timing log line: the operation
    name, the elapsed seconds since [start_time], and the deployment used. *)
Definition log_timing (operation : str) (start_time : float) (detail : str)
    : M state unit :=
  now <- time_time ;;
  emit (Timing operation (PrimFloat.sub now start_time) detail).

(** [llm_client.chat.completions.create] with the keyword arguments [kw]. *)
Definition chat_completions_create (llm_client : client) (kw : Request.kwargs)
    : M state Response.completion :=
  fun s =>
    (create llm_client (sent s) kw,
     {| sent := sent s ++ [kw]; log := log s; clock_reads := clock_reads s |}).

(** [xs[0]]. *)
Definition getitem0 {A} (xs : list A) : M state A :=
  match xs with
  | x :: _ => ret x
  | [] => raise (IndexError (lit "list index out of range"))
  end.

Definition usage_field (u : option Response.token_usage)
    (field : Response.token_usage -> Z) : value :=
  match u with
  | Some counters => VInt (field counters)
  | None => VNone
  end.

(** Lines 13-37. *)
Definition call_fallback (llm_client : client) (fallback_prompt : str)
    (gpt_deployment : str) : M state (option str) :=
  start_time <- time_time ;;
  let chat_prompt :=
    [ {| Request.role := lit "system";
         Request.content :=
           [ {| Request.type := lit "text"; Request.text := fallback_prompt |} ] |} ] in
  let messages := chat_prompt in
  completion <- chat_completions_create llm_client
    {| Request.model := gpt_deployment;
       Request.messages := messages;
       Request.temperature := 0.7;
       Request.top_p := None;
       Request.frequency_penalty := None;
       Request.presence_penalty := None;
       Request.stop := None;
       Request.stream := false |} ;;
  first <- getitem0 (Response.choices completion) ;;
  let result := Response.content (Response.message first) in
  log_timing (lit "Fallback Call") start_time (lit "Model: " ++ gpt_deployment) ;;
  ret result.

(** The default of [gpt_deployment] in [call_fallback]. *)
Definition call_fallback_default : str := lit "gpt-5-mini".

(** Lines 40-85: the function as written, before the decorator is applied. *)
Definition cora_fallback_undecorated (llm_client : client) (fallback_prompt : str)
    (gpt_deployment : str) : M state (option str) :=
  start_time <- time_time ;;
  logger_info
    (lit "Calling Cora fallback with phi-4 model (deployment: "
       ++ gpt_deployment ++ lit ")") [] ;;
  let chat_prompt :=
    [ {| Request.role := lit "system";
         Request.content :=
           [ {| Request.type := lit "text"; Request.text := fallback_prompt |} ] |} ] in
  let messages := chat_prompt in
  completion <- chat_completions_create llm_client
    {| Request.model := gpt_deployment;
       Request.messages := messages;
       Request.temperature := 0.7;
       Request.top_p := Some 0.95%float;
       Request.frequency_penalty := Some 0%Z;
       Request.presence_penalty := Some 0%Z;
       Request.stop := Some None;
       Request.stream := false |} ;;
  first <- getitem0 (Response.choices completion) ;;
  let result := Response.content (Response.message first) in
  now <- time_time ;;
  let execution_time := PrimFloat.sub now start_time in
  logger_info (lit "Phi-4 Cora fallback completed")
    (dict_display
       [ (lit "model", VStr gpt_deployment);
         (lit "execution_time_seconds", VFloat execution_time);
         (lit "prompt_tokens",
          usage_field (Response.usage completion) Response.prompt_tokens);
         (lit "completion_tokens",
          usage_field (Response.usage completion) Response.completion_tokens);
         (lit "total_tokens",
          usage_field (Response.usage completion) Response.total_tokens);
         (lit "temperature", VFloat 0.7);
         (lit "top_p", VFloat 0.95) ]) ;;
  log_timing (lit "Cora Fallback Call") start_time (lit "Model: " ++ gpt_deployment) ;;
  ret result.

(** [azure.ai.agents.telemetry.trace_function(span_name=None)] is a decorator
    factory: a call of it returns the decorator proper, a function of exactly
    one positional parameter, the function to trace. What Python raises when
    that decorator is called with [given] positional arguments instead. *)
Definition decorator_TypeError (given : nat) : exception :=
  {| exc_family := ExceptionFamily;
     exc_type := lit "TypeError";
     exc_str := lit "trace_function.<locals>.decorator() takes 1 positional argument but "
                  ++ str_of_int (Z.of_nat given) ++ lit " were given" |}.

(** Line 39 applies [trace_function] bare, without calling it: the function
    of lines 40-85 is passed as [span_name], and the name [cora_fallback] is
    bound to the decorator that comes back. A call of [cora_fallback] with
    the caller's arguments, two when the deployment is left to its default and
    three otherwise, is therefore a call of that one-parameter decorator:
    it raises before a line of the body runs. *)
Definition cora_fallback (llm_client : client) (fallback_prompt : str)
    (gpt_deployment : option str) : M state (option str) :=
  let given := match gpt_deployment with Some _ => 3%nat | None => 2%nat end in
  raise (decorator_TypeError given).

(** The default of [gpt_deployment] in [cora_fallback]. *)
Definition cora_fallback_default : str := lit "Phi-4".

End Calls.

End FallbackService.

(* ================================================================== *)
(** ** [src/test_endpoints.py] *)
(* ================================================================== *)

Module TestEndpoints.
Import Py.
Local Open Scope py_scope.

(** The markers the report lines start with. *)
Definition check_mark : str := [9989%N].
Definition cross_mark : str := [10060%N].
Definition warning_sign : str := [9888%N; 65039%N].
Definition party_popper : str := [127881%N].
Definition newline : str := [10%N].

(** A value read from the environment: [None] or a [str]. *)
Definition value := option str.

(** A value inside an f-string. *)
Definition format (v : value) : str :=
  match v with
  | Some s => s
  | None => lit "None"
  end.

(** The calls into the HTTP library and the Azure SDK, with their arguments. *)
Inductive call :=
| RequestsGet (url : str) (headers : option (dict value)) (timeout : Z)
| DefaultAzureCredential
| CosmosClient (endpoint : value)
| GetDatabaseClient (database_name : value)
| DatabaseRead
| BlobServiceClient (account_url : str)
| GetContainerClient (container_name : value)
| GetContainerProperties.

(** What a run leaves behind: the texts printed, one entry for each call of
    [print], and the calls made. *)
Record state := { stdout : list str; calls : list call }.

Definition initial : state := {| stdout := []; calls := [] |}.

(** The services behind the libraries: given the calls made so far,
    [requests.get] answers with a status code or raises, and an SDK call
    returns or raises. *)
Record world := {
  http_get : list call -> str -> option (dict value) -> Z -> outcome Z;
  sdk : list call -> call -> outcome unit
}.

Definition AttributeError : exception :=
  {| exc_family := ExceptionFamily; exc_type := lit "AttributeError";
     exc_str := lit "'NoneType' object has no attribute" |}.

Definition TypeError : exception :=
  {| exc_family := ExceptionFamily; exc_type := lit "TypeError";
     exc_str := lit "'NoneType' object is not subscriptable" |}.

Definition print (line : str) : M state unit :=
  fun s => (Return tt, {| stdout := stdout s ++ [line]; calls := calls s |}).

(** The receiver of a [str] method: [None] has no such attribute. *)
Definition receiver (v : value) : M state str :=
  match v with
  | Some s => ret s
  | None => raise AttributeError
  end.

(** [v[:n]]. *)
Definition getslice_to (n : nat) (v : value) : M state str :=
  match v with
  | Some s => ret (slice_to n s)
  | None => raise TypeError
  end.

Definition lift {A} (r : outcome A) : M state A := fun s => (r, s).

(** [sum(1 for v in vs if v)]. *)
Definition count_true (vs : list bool) : Z :=
  Z.of_nat (List.length (filter (fun v => v) vs)).

Section Checks.

(** [os.getenv] over the process environment, and the services. *)
Variable environ : str -> value.
Variable w : world.

Definition os_getenv (name : string) : value := environ (lit name).

Definition requests_get (url : str) (headers : option (dict value)) (timeout : Z)
    : M state Z :=
  fun s =>
    (http_get w (calls s) url headers timeout,
     {| stdout := stdout s; calls := calls s ++ [RequestsGet url headers timeout] |}).

Definition sdk_call (c : call) : M state unit :=
  fun s => (sdk w (calls s) c, {| stdout := stdout s; calls := calls s ++ [c] |}).

(** Lines 13-25. *)
Definition test_endpoint (name : str) (url : str) (headers : option (dict value))
    : M state bool :=
  try_except
    (status_code <- requests_get url headers 10 ;;
     if (status_code <? 500)%Z then
       print (check_mark ++ lit " " ++ name ++ lit ": Accessible (Status: "
                ++ str_of_int status_code ++ lit ")") ;;
       ret true
     else
       print (cross_mark ++ lit " " ++ name ++ lit ": Server error (Status: "
                ++ str_of_int status_code ++ lit ")") ;;
       ret false)
    isinstance_RequestException
    (fun e =>
       print (cross_mark ++ lit " " ++ name ++ lit ": Connection failed - "
                ++ slice_to 100 (exc_str e)) ;;
       ret false).

(** Lines 27-40. *)
Definition test_azure_openai : M state bool :=
  let endpoint := os_getenv "AZURE_OPENAI_ENDPOINT" in
  let api_key := os_getenv "AZURE_OPENAI_KEY" in
  let api_version := os_getenv "AZURE_OPENAI_API_VERSION" in
  if negb (all [truthy endpoint; truthy api_key; truthy api_version]) then
    print (cross_mark ++ lit " Azure OpenAI: Missing configuration") ;;
    ret false
  else
    base <- receiver endpoint ;;
    let url := rstrip (lit "/") base ++ lit "/openai/deployments?api-version="
                 ++ format api_version in
    let headers := dict_display [(lit "api-key", api_key)] in
    test_endpoint (lit "Azure OpenAI") url (Some headers).

(** Lines 42-54. *)
Definition test_ai_search : M state bool :=
  let endpoint := os_getenv "SEARCH_ENDPOINT" in
  let api_key := os_getenv "SEARCH_KEY" in
  let index_name := os_getenv "INDEX_NAME" in
  if negb (all [truthy endpoint; truthy api_key; truthy index_name]) then
    print (cross_mark ++ lit " AI Search: Missing configuration") ;;
    ret false
  else
    base <- receiver endpoint ;;
    let url := rstrip (lit "/") base ++ lit "/indexes/" ++ format index_name
                 ++ lit "?api-version=2023-11-01" in
    let headers := dict_display [(lit "api-key", api_key)] in
    test_endpoint (lit "AI Search") url (Some headers).

(** Lines 56-78. The import of line 58 has no effect of its own. *)
Definition test_cosmos_db : M state bool :=
  let endpoint := os_getenv "COSMOS_ENDPOINT" in
  let database_name := os_getenv "DATABASE_NAME" in
  if negb (all [truthy endpoint; truthy database_name]) then
    print (cross_mark ++ lit " Cosmos DB: Missing configuration") ;;
    ret false
  else
    try_except
      (sdk_call DefaultAzureCredential ;;
       sdk_call (CosmosClient endpoint) ;;
       sdk_call (GetDatabaseClient database_name) ;;
       sdk_call DatabaseRead ;;
       print (check_mark ++ lit " Cosmos DB: Accessible (AAD auth) and database '"
                ++ format database_name ++ lit "' exists") ;;
       ret true)
      isinstance_Exception
      (fun e =>
         print (cross_mark ++ lit " Cosmos DB: Failed - " ++ slice_to 100 (exc_str e)) ;;
         ret false).

(** Lines 80-103. The import of line 82 has no effect of its own. *)
Definition test_storage_account : M state bool :=
  let storage_account_name := os_getenv "storage_account_name" in
  let container_name := os_getenv "storage_container_name" in
  if negb (all [truthy storage_account_name; truthy container_name]) then
    print (cross_mark ++ lit " Storage Account: Missing configuration") ;;
    ret false
  else
    try_except
      (let account_url :=
         lit "https://" ++ format storage_account_name ++ lit ".blob.core.windows.net" in
       sdk_call DefaultAzureCredential ;;
       sdk_call (BlobServiceClient account_url) ;;
       sdk_call (GetContainerClient container_name) ;;
       sdk_call GetContainerProperties ;;
       print (check_mark ++ lit " Storage Account: Accessible (AAD auth) and container '"
                ++ format container_name ++ lit "' exists") ;;
       ret true)
      isinstance_Exception
      (fun e =>
         print (cross_mark ++ lit " Storage Account: Failed - "
                  ++ slice_to 100 (exc_str e)) ;;
         ret false).

Definition semicolon : char := 59%N.
Definition equals_sign : char := 61%N.

(** Lines 105-124. *)
Definition test_application_insights : M state bool :=
  let conn_string := os_getenv "APPLICATIONINSIGHTS_CONNECTION_STRING" in
  if negb (truthy conn_string) then
    print (cross_mark ++ lit " Application Insights: Missing configuration") ;;
    ret false
  else
    try_except
      (text <- receiver conn_string ;;
       parts <- lift (dict_of_pairs
                        (map (split1 equals_sign)
                           (filter (contains equals_sign) (split semicolon text)))) ;;
       if dict_contains parts (lit "InstrumentationKey")
          && dict_contains parts (lit "IngestionEndpoint") then
         print (check_mark ++ lit " Application Insights: Configuration valid") ;;
         ret true
       else
         print (cross_mark ++ lit " Application Insights: Invalid connection string format") ;;
         ret false)
      isinstance_Exception
      (fun e =>
         print (cross_mark ++ lit " Application Insights: Failed to parse - " ++ exc_str e) ;;
         ret false).

(** Lines 126-145. *)
Definition test_agent_ids : M state bool :=
  let agents :=
    dict_display
      [ (lit "Customer Loyalty", os_getenv "customer_loyalty");
        (lit "Inventory Agent", os_getenv "inventory_agent");
        (lit "Interior Designer", os_getenv "interior_designer");
        (lit "Cora (Shopper)", os_getenv "cora");
        (lit "Cart Manager", os_getenv "cart_manager") ] in
  let all_configured := true in
  all_configured <- for_each agents all_configured
    (fun all_configured item =>
       let name := fst item in
       let agent_id := snd item in
       if truthy agent_id && truthy (option_map strip agent_id) then
         shown <- getslice_to 20 agent_id ;;
         print (check_mark ++ lit " Agent ID - " ++ name ++ lit ": Configured ("
                  ++ shown ++ lit "...)") ;;
         ret all_configured
       else
         print (warning_sign ++ lit "  Agent ID - " ++ name ++ lit ": Not configured") ;;
         if str_eqb name (lit "Customer Loyalty") then ret false
         else ret all_configured) ;;
  ret all_configured.

(** Lines 154-161: the six checks run in the order of the dict display. *)
Definition main_results : M state (dict bool) :=
  r1 <- test_azure_openai ;;
  r2 <- test_ai_search ;;
  r3 <- test_cosmos_db ;;
  r4 <- test_storage_account ;;
  r5 <- test_application_insights ;;
  r6 <- test_agent_ids ;;
  ret (dict_display
         [ (lit "Azure OpenAI", r1);
           (lit "AI Search", r2);
           (lit "Cosmos DB", r3);
           (lit "Storage Account", r4);
           (lit "Application Insights", r5);
           (lit "Agent IDs", r6) ]).

Definition rule : str := str_repeat equals_sign 80.

(** Lines 163-177. *)
Definition main_summary (results : dict bool) : M state Z :=
  print [] ;;
  print rule ;;
  print (lit "Summary") ;;
  print rule ;;
  let passed := count_true (values results) in
  let total := len results in
  print (check_mark ++ lit " Passed: " ++ str_of_int passed ++ lit "/"
           ++ str_of_int total) ;;
  print (cross_mark ++ lit " Failed: " ++ str_of_int (total - passed) ++ lit "/"
           ++ str_of_int total) ;;
  if all (values results) then
    print (newline ++ party_popper ++ lit " All endpoints are configured correctly!") ;;
    ret 0%Z
  else
    print (newline ++ warning_sign
             ++ lit "  Some endpoints need attention. Review the failures above.") ;;
    ret 1%Z.

(** Lines 147-177. *)
Definition main : M state Z :=
  print rule ;;
  print (lit "Testing Azure Service Endpoints") ;;
  print rule ;;
  print [] ;;
  results <- main_results ;;
  main_summary results.

End Checks.

End TestEndpoints.

(* ================================================================== *)
(** ** The vocabulary of the specification *)
(* ================================================================== *)

(** The requests the specification describes for the two fallback callers. *)
Module FallbackContract.
Import Py FallbackService.

#[local] Set Warnings "-inexact-float".

(** Exactly one system-role message whose text content is the prompt. *)
Definition single_system_message (prompt : str) : list Request.message :=
  [ {| Request.role := lit "system";
       Request.content := [ {| Request.type := lit "text"; Request.text := prompt |} ] |} ].

(** Streaming disabled, temperature 0.7, nothing else passed. *)
Definition plain_request (prompt deployment : str) : Request.kwargs :=
  {| Request.model := deployment;
     Request.messages := single_system_message prompt;
     Request.temperature := 0.7;
     Request.top_p := None;
     Request.frequency_penalty := None;
     Request.presence_penalty := None;
     Request.stop := None;
     Request.stream := false |}.

(** The second variant: top-p 0.95, zero penalties, no stop sequence. *)
Definition cora_request (prompt deployment : str) : Request.kwargs :=
  {| Request.model := deployment;
     Request.messages := single_system_message prompt;
     Request.temperature := 0.7;
     Request.top_p := Some 0.95%float;
     Request.frequency_penalty := Some 0%Z;
     Request.presence_penalty := Some 0%Z;
     Request.stop := Some None;
     Request.stream := false |}.

(** The message text of the first choice, when there is one. *)
Definition first_choice_text (c : Response.completion) : option (option str) :=
  match Response.choices c with
  | first :: _ => Some (Response.content (Response.message first))
  | [] => None
  end.

(** What a caller hands back, given the endpoint's answer to its one
    request. *)
Definition handed_back (answer : outcome Response.completion) : outcome (option str) :=
  match answer with
  | Return completion =>
      match first_choice_text completion with
      | Some text => Return text
      | None => Raise (IndexError (lit "list index out of range"))
      end
  | Raise e => Raise e
  end.

End FallbackContract.

(** The six checks of the prober, their report names and the configuration
    each one requires. *)
Module ProberContract.
Import Py TestEndpoints.

Inductive check :=
| AzureOpenAI
| AISearch
| CosmosDB
| StorageAccount
| ApplicationInsights
| AgentIDs.

Definition all_checks : list check :=
  [AzureOpenAI; AISearch; CosmosDB; StorageAccount; ApplicationInsights; AgentIDs].

Definition run (c : check) (environ : str -> value) (w : world) : M state bool :=
  match c with
  | AzureOpenAI => test_azure_openai environ w
  | AISearch => test_ai_search environ w
  | CosmosDB => test_cosmos_db environ w
  | StorageAccount => test_storage_account environ w
  | ApplicationInsights => test_application_insights environ
  | AgentIDs => test_agent_ids environ
  end.

Definition service_name (c : check) : str :=
  match c with
  | AzureOpenAI => lit "Azure OpenAI"
  | AISearch => lit "AI Search"
  | CosmosDB => lit "Cosmos DB"
  | StorageAccount => lit "Storage Account"
  | ApplicationInsights => lit "Application Insights"
  | AgentIDs => lit "Agent IDs"
  end.

(** The environment variables a check cannot do without. For the
    identifier check that is the Customer Loyalty agent id alone. *)
Definition required (c : check) : list string :=
  match c with
  | AzureOpenAI =>
      ["AZURE_OPENAI_ENDPOINT"; "AZURE_OPENAI_KEY"; "AZURE_OPENAI_API_VERSION"]%string
  | AISearch => ["SEARCH_ENDPOINT"; "SEARCH_KEY"; "INDEX_NAME"]%string
  | CosmosDB => ["COSMOS_ENDPOINT"; "DATABASE_NAME"]%string
  | StorageAccount => ["storage_account_name"; "storage_container_name"]%string
  | ApplicationInsights => ["APPLICATIONINSIGHTS_CONNECTION_STRING"]%string
  | AgentIDs => ["customer_loyalty"]%string
  end.

(** Every required variable of the check is set to a non-empty value. *)
Definition configured (c : check) (environ : str -> value) : bool :=
  forallb (fun name => truthy (environ (lit name))) (required c).

(** The checks that open with a configuration guard and report
    [Missing configuration]. *)
Definition guarded (c : check) : bool :=
  match c with
  | AgentIDs => false
  | _ => true
  end.

Definition missing_configuration_line (c : check) : str :=
  cross_mark ++ lit " " ++ service_name c ++ lit ": Missing configuration".

(** The environment with one variable removed. *)
Definition unsetenv (environ : str -> value) (name : string) : str -> value :=
  fun k => if str_eqb k (lit name) then None else environ k.

(** A value is blank when it is absent, empty or whitespace only. *)
Definition blank (v : value) : Prop :=
  match v with
  | None => True
  | Some s => Forall (fun c => isspace c = true) s
  end.

(** [key in parts], for the dict the telemetry check builds from the
    connection string [text]. *)
Definition has_key (key : str) (text : str) : bool :=
  existsb (pair_key key)
    (map (split1 equals_sign) (filter (contains equals_sign) (split semicolon text))).

(** [key=...] opens one of the semicolon-delimited items of [s]. *)
Definition key_present (key : string) (s : str) : Prop :=
  exists before rest,
    s = before ++ lit key ++ equals_sign :: rest
    /\ (before = [] \/ exists items, before = items ++ [semicolon]).

(** The services raise nothing but what the checks handle: the HTTP layer
    raises members of the [RequestException] family, the SDK subclasses of
    [Exception]. *)
Definition raises_handled (w : world) : Prop :=
  (forall history url headers timeout e,
      http_get w history url headers timeout = Raise e ->
      isinstance_RequestException e = true)
  /\ (forall history c e,
         sdk w history c = Raise e -> isinstance_Exception e = true).

(** The checks of [cs] one after the other, as [main] runs them: the
    results in order, or the first exception. *)
Fixpoint run_all (cs : list check) (environ : str -> value) (w : world)
    : M state (list bool) :=
  match cs with
  | [] => ret []
  | c :: cs' =>
      bind (run c environ w)
        (fun r => bind (run_all cs' environ w) (fun rs => ret (r :: rs)))
  end.

(** The two checks that are one raw HTTP GET. *)
Definition raw_http_probe (c : check) : bool :=
  match c with
  | AzureOpenAI | AISearch => true
  | _ => false
  end.

(** The seven lines of the summary. *)
Definition summary_lines (passed total : Z) (verdict : str) : list str :=
  [ []; rule; lit "Summary"; rule;
    check_mark ++ lit " Passed: " ++ str_of_int passed ++ lit "/" ++ str_of_int total;
    cross_mark ++ lit " Failed: " ++ str_of_int (total - passed) ++ lit "/"
      ++ str_of_int total;
    verdict ].

(** The call [k], made after [history], raised. *)
Definition raised (w : world) (history : list call) (k : call) : bool :=
  match k with
  | RequestsGet url headers timeout =>
      match http_get w history url headers timeout with
      | Raise _ => true
      | Return _ => false
      end
  | _ =>
      match sdk w history k with
      | Raise _ => true
      | Return _ => false
      end
  end.

(** One of the calls made between the states [s0] and [s1] raised. *)
Definition call_raised_between (w : world) (s0 s1 : state) : Prop :=
  exists before k after,
    calls s1 = calls s0 ++ before ++ k :: after
    /\ raised w (calls s0 ++ before) k = true.

(** The state [main] has reached when the first check starts. *)
Definition after_banner (s : state) : state :=
  {| stdout := stdout s ++ [rule; lit "Testing Azure Service Endpoints"; rule; []];
     calls := calls s |}.

End ProberContract.

(** Sample inputs: two clients, one that answers and one that is down. *)
Module FallbackExamples.
Import Py FallbackService.

Definition frozen_clock : nat -> float := fun _ => 0%float.

Definition pong : Response.completion :=
  {| Response.choices :=
       [ {| Response.message := {| Response.content := Some (lit "pong") |} |} ];
     Response.usage :=
       Some {| Response.prompt_tokens := 3;
               Response.completion_tokens := 1;
               Response.total_tokens := 4 |} |}.

Definition answering_client : client := {| create := fun _ _ => Return pong |}.



(** An answer without choices. *)
Definition no_choice : Response.completion :=
  {| Response.choices := []; Response.usage := None |}.

Definition mute_client : client := {| create := fun _ _ => Return no_choice |}.

End FallbackExamples.

(** Sample environments and services for the prober. *)
Module ProberExamples.
Import Py TestEndpoints ProberContract.

(** An environment given by the variables that are set. *)
Fixpoint environ_of (vars : list (string * str)) (name : str) : value :=
  match vars with
  | [] => None
  | (k, v) :: vars' => if str_eqb (lit k) name then Some v else environ_of vars' name
  end.

Definition valid_connection_string : str :=
  lit "InstrumentationKey=abc;IngestionEndpoint=https://in.example/".

Definition network_vars : list (string * str) :=
  [ ("AZURE_OPENAI_ENDPOINT", lit "https://aoai.example/");
    ("AZURE_OPENAI_KEY", lit "key-1");
    ("AZURE_OPENAI_API_VERSION", lit "2024-02-01");
    ("SEARCH_ENDPOINT", lit "https://search.example");
    ("SEARCH_KEY", lit "key-2");
    ("INDEX_NAME", lit "products");
    ("COSMOS_ENDPOINT", lit "https://cosmos.example");
    ("DATABASE_NAME", lit "shop");
    ("storage_account_name", lit "store");
    ("storage_container_name", lit "images") ]%string.

(** Everything the six checks require is set. *)
Definition full_environ : str -> value :=
  environ_of
    (network_vars
       ++ [ ("APPLICATIONINSIGHTS_CONNECTION_STRING", valid_connection_string);
            ("customer_loyalty", lit "asst_1") ]%string).

(** The network variables set; the connection string complete or cut short,
    the Customer Loyalty id set or not. *)
Definition environ_for (telemetry ids : bool) : str -> value :=
  environ_of
    (network_vars
       ++ [ ("APPLICATIONINSIGHTS_CONNECTION_STRING",
             if telemetry then valid_connection_string else lit "InstrumentationKey=abc")
          ]%string
       ++ (if ids then [ ("customer_loyalty", lit "asst_1") ]%string else [])).

(** Nothing is set. *)
Definition empty_environ : str -> value := environ_of [].

(** Everything is set, the search key to the empty string. *)
Definition empty_search_key_environ : str -> value :=
  environ_of (("SEARCH_KEY", [])%string :: network_vars).

Definition not_found : exception :=
  {| exc_family := ExceptionFamily; exc_type := lit "ResourceNotFoundError";
     exc_str := lit "The specified resource does not exist." |}.

Definition connection_error : exception :=
  {| exc_family := RequestExceptionFamily; exc_type := lit "ConnectionError";
     exc_str := lit "Failed to establish a new connection" |}.

(** What [http.client] raises for a header value outside Latin-1: a
    [ValueError], not a [RequestException]. *)
Definition unicode_encode_error : exception :=
  {| exc_family := ExceptionFamily; exc_type := lit "UnicodeEncodeError";
     exc_str := lit "'latin-1' codec can't encode characters" |}.

(** Services that make the four network checks come out as wanted: the
    first GET of a run is the model-serving one, the second the search one. *)
Definition world_for (openai search cosmos storage : bool) : world :=
  {| http_get := fun history _ _ _ =>
       match history with
       | [] => Return (if openai then 200 else 503)%Z
       | _ :: _ => Return (if search then 404 else 500)%Z
       end;
     sdk := fun _ c =>
       match c with
       | DatabaseRead => if cosmos then Return tt else Raise not_found
       | GetContainerProperties => if storage then Return tt else Raise not_found
       | _ => Return tt
       end |}.

(** Every GET is answered with the same status. *)
Definition answering (status_code : Z) : world :=
  {| http_get := fun _ _ _ _ => Return status_code;
     sdk := fun _ _ => Return tt |}.

(** Nothing is reachable. *)
Definition unreachable : world :=
  {| http_get := fun _ _ _ _ => Raise connection_error;
     sdk := fun _ _ => Raise not_found |}.

(** A key with characters outside Latin-1, and the HTTP layer failing on it. *)
Definition cyrillic_key_environ : str -> value :=
  environ_of (("AZURE_OPENAI_KEY", [1082; 1083; 1102; 1095]%N)%string :: network_vars).

Definition encoding_failure : world :=
  {| http_get := fun _ _ _ _ => Raise unicode_encode_error;
     sdk := fun _ _ => Return tt |}.

End ProberExamples.

(** What the second caller logs, for the properties beyond the claims. *)
Module FallbackDetails.
Import Py FallbackService.



End FallbackDetails.

(** What the checks put on the wire and on the screen, for the properties
    beyond the claims. *)
Module ProberDetails.
Import Py TestEndpoints ProberContract.

(** The environment with one variable set. *)
Definition setenv (environ : str -> value) (name : string) (v : str) : str -> value :=
  fun k => if str_eqb k (lit name) then Some v else environ k.

Definition slash : char := 47%N.

(** The URL a raw HTTP probe asks for. *)
Definition probe_url (c : check) (environ : str -> value) : str :=
  match c with
  | AzureOpenAI =>
      rstrip (lit "/") (format (environ (lit "AZURE_OPENAI_ENDPOINT")))
        ++ lit "/openai/deployments?api-version="
        ++ format (environ (lit "AZURE_OPENAI_API_VERSION"))
  | AISearch =>
      rstrip (lit "/") (format (environ (lit "SEARCH_ENDPOINT")))
        ++ lit "/indexes/" ++ format (environ (lit "INDEX_NAME"))
        ++ lit "?api-version=2023-11-01"
  | _ => []
  end.

(** The variables holding the endpoint and the API key of a raw HTTP probe. *)
Definition endpoint_variable (c : check) : string :=
  match c with
  | AzureOpenAI => "AZURE_OPENAI_ENDPOINT"
  | _ => "SEARCH_ENDPOINT"
  end.

Definition key_variable (c : check) : string :=
  match c with
  | AzureOpenAI => "AZURE_OPENAI_KEY"
  | _ => "SEARCH_KEY"
  end.

(** The one call of a raw HTTP probe. *)
Definition probe_call (c : check) (environ : str -> value) : call :=
  RequestsGet (probe_url c environ)
    (Some [(lit "api-key", environ (lit (key_variable c)))]) 10.

(** The SDK calls of the database and the blob-storage check, in order. *)
Definition sdk_sequence (c : check) (environ : str -> value) : list call :=
  match c with
  | CosmosDB =>
      [ DefaultAzureCredential;
        CosmosClient (environ (lit "COSMOS_ENDPOINT"));
        GetDatabaseClient (environ (lit "DATABASE_NAME"));
        DatabaseRead ]
  | StorageAccount =>
      [ DefaultAzureCredential;
        BlobServiceClient
          (lit "https://" ++ format (environ (lit "storage_account_name"))
             ++ lit ".blob.core.windows.net");
        GetContainerClient (environ (lit "storage_container_name"));
        GetContainerProperties ]
  | _ => []
  end.

(** A sequence of SDK calls made one after the other until one raises: the
    exception, if any, and the record of calls afterwards. *)
Fixpoint sdk_run (w : world) (history : list call) (sequence : list call)
    : outcome unit * list call :=
  match sequence with
  | [] => (Return tt, history)
  | k :: rest =>
      match sdk w history k with
      | Return _ => sdk_run w (history ++ [k]) rest
      | Raise e => (Raise e, history ++ [k])
      end
  end.

(** Every call of [ks], made one after the other from [history], returns. *)
Definition returned_all (w : world) (history : list call) (ks : list call) : Prop :=
  forall before k after,
    ks = before ++ k :: after -> sdk w (history ++ before) k = Return tt.

(** The checks that call a service. *)
Definition network_check (c : check) : bool :=
  match c with
  | AzureOpenAI | AISearch | CosmosDB | StorageAccount => true
  | _ => false
  end.

(** The three lines the telemetry check can print. *)
Definition telemetry_missing : str :=
  cross_mark ++ lit " Application Insights: Missing configuration".
Definition telemetry_valid : str :=
  check_mark ++ lit " Application Insights: Configuration valid".
Definition telemetry_invalid : str :=
  cross_mark ++ lit " Application Insights: Invalid connection string format".

(** The line the identifier check prints for one agent. *)
Definition agent_line (name : str) (agent_id : value) : str :=
  if is_blank agent_id then
    warning_sign ++ lit "  Agent ID - " ++ name ++ lit ": Not configured"
  else
    check_mark ++ lit " Agent ID - " ++ name ++ lit ": Configured ("
      ++ slice_to 20 (format agent_id) ++ lit "...)".


End ProberDetails.

(* ================================================================== *)
(** ** Facts about the Python fragment *)
(* ================================================================== *)

Module PyFacts.
Import Py.

(** *** The string operations on sample inputs, as Python evaluates them *)

Example split_sample :
  split 59%N (lit "a=1;;b") = [lit "a=1"; []; lit "b"].
Proof. reflexivity. Qed.

Example split1_sample : split1 61%N (lit "a=b=c") = [lit "a"; lit "b=c"].
Proof. reflexivity. Qed.

Example split1_no_separator : split1 61%N (lit "abc") = [lit "abc"].
Proof. reflexivity. Qed.

Example rstrip_sample : rstrip (lit "/") (lit "https://host//") = lit "https://host".
Proof. reflexivity. Qed.

Example strip_sample : strip ([9; 32] ++ lit "x y" ++ [160; 10])%N = lit "x y".
Proof. reflexivity. Qed.

Example str_of_int_samples :
  str_of_int 404 = lit "404" /\ str_of_int 0 = lit "0" /\ str_of_int (-5) = lit "-5".
Proof. repeat split. Qed.

Example dict_display_sample :
  dict_display [(lit "a", 1%Z); (lit "b", 2%Z); (lit "a", 3%Z)]
  = [(lit "a", 3%Z); (lit "b", 2%Z)].
Proof. reflexivity. Qed.


Lemma str_eqb_refl (a : str) : str_eqb a a = true.
Proof.
  induction a as [|x a IH]; simpl; [reflexivity|].
  now rewrite N.eqb_refl, IH.
Qed.

Lemma str_eqb_eq (a b : str) : str_eqb a b = true <-> a = b.
Proof.
  split.
  - revert b. induction a as [|x a IH]; intros [|y b] H; simpl in H;
      try discriminate; [reflexivity|].
    apply andb_true_iff in H. destruct H as [Hxy Hab].
    apply N.eqb_eq in Hxy. apply IH in Hab. now subst.
  - intros ->. apply str_eqb_refl.
Qed.

Lemma str_eqb_sym (a b : str) : str_eqb a b = str_eqb b a.
Proof.
  destruct (str_eqb a b) eqn:E.
  - apply str_eqb_eq in E. subst. symmetry. apply str_eqb_refl.
  - destruct (str_eqb b a) eqn:E'; [|reflexivity].
    apply str_eqb_eq in E'. subst. now rewrite str_eqb_refl in E.
Qed.

(** *** Stripping *)

Section Strip.
Variable drop : char -> bool.

Lemma lstrip_by_nil (s : str) : lstrip_by drop s = [] <-> forallb drop s = true.
Proof.
  induction s as [|c s IH]; simpl; [tauto|].
  destruct (drop c); simpl; [exact IH|].
  split; discriminate.
Qed.

Lemma rstrip_by_nil (s : str) : rstrip_by drop s = [] <-> forallb drop s = true.
Proof.
  induction s as [|c s IH]; simpl; [tauto|].
  destruct (rstrip_by drop s) as [|k kept] eqn:E.
  - destruct (drop c); simpl.
    + split; intros _; [now apply IH | reflexivity].
    + split; discriminate.
  - split; [discriminate|].
    intros H. apply andb_true_iff in H. destruct H as [_ H].
    apply IH in H. discriminate.
Qed.

Lemma forallb_lstrip_by (s : str) :
  forallb drop (lstrip_by drop s) = forallb drop s.
Proof.
  induction s as [|c s IH]; simpl; [reflexivity|].
  destruct (drop c) eqn:E; simpl; [exact IH|].
  now rewrite E.
Qed.

End Strip.

Lemma strip_nil (s : str) : strip s = [] <-> forallb isspace s = true.
Proof.
  unfold strip. rewrite rstrip_by_nil, forallb_lstrip_by. tauto.
Qed.

(** [v and v.strip()] is falsy exactly for a blank value. *)
Lemma and_strip_truthy (v : option str) :
  truthy v && truthy (option_map strip v) = negb (is_blank v).
Proof.
  destruct v as [s|]; simpl; [|reflexivity].
  destruct s as [|c s]; [reflexivity|].
  cbn [truthy andb].
  destruct (strip (c :: s)) as [|k kept] eqn:E.
  - apply strip_nil in E. now rewrite E.
  - destruct (forallb isspace (c :: s)) eqn:F; [|reflexivity].
    apply strip_nil in F. rewrite F in E. discriminate.
Qed.

Lemma is_blank_Forall (s : str) :
  forallb isspace s = true <-> Forall (fun c => isspace c = true) s.
Proof.
  rewrite forallb_forall, Forall_forall. tauto.
Qed.

(** *** Splitting *)

Section Split.
Variable sep : char.

Lemma split_head (s : str) : exists pieces, split sep s = take_until sep s :: pieces.
Proof.
  induction s as [|c s [pieces IH]]; simpl.
  - now exists [].
  - destruct (N.eqb c sep).
    + now eexists.
    + rewrite IH. now eexists.
Qed.

Lemma take_until_prefix (s : str) : exists after, s = take_until sep s ++ after.
Proof.
  induction s as [|c s [after IH]]; simpl.
  - now exists [].
  - destruct (N.eqb c sep).
    + now exists (c :: s).
    + exists after. simpl. congruence.
Qed.

Lemma take_until_app (k rest : str) :
  contains sep k = false -> take_until sep (k ++ rest) = k ++ take_until sep rest.
Proof.
  induction k as [|c k IH]; simpl; intros H; [reflexivity|].
  apply orb_false_iff in H. destruct H as [Hc Hk].
  rewrite N.eqb_sym, Hc. now rewrite IH.
Qed.

Lemma split_app_sep (a b : str) :
  split sep (a ++ sep :: b) = split sep a ++ split sep b.
Proof.
  induction a as [|c a IH]; simpl.
  - now rewrite N.eqb_refl.
  - destruct (N.eqb c sep); [now rewrite IH|].
    rewrite IH. destruct (split_head a) as [pieces ->]. reflexivity.
Qed.

(** Every piece after the first one follows a separator. *)
Lemma split_tail_In (s item : str) :
  In item (tl (split sep s)) ->
  exists before after, s = before ++ sep :: item ++ after.
Proof.
  induction s as [|c s IH]; simpl; [tauto|].
  destruct (N.eqb c sep) eqn:E.
  - apply N.eqb_eq in E. subst c. simpl. intros H.
    destruct (split_head s) as [pieces Hs]. rewrite Hs in H, IH.
    destruct H as [H | H].
    + subst item. destruct (take_until_prefix s) as [after Ha].
      exists [], after. simpl. now rewrite <- Ha.
    + destruct (IH H) as (before & after & ->).
      now exists (sep :: before), after.
  - destruct (split_head s) as [pieces Hs]. rewrite Hs in *. simpl.
    intros H. destruct (IH H) as (before & after & ->).
    now exists (c :: before), after.
Qed.

(** A piece of [s.split(sep)] stands at the start of [s] or right after a
    separator. *)
Lemma split_In_inv (s item : str) :
  In item (split sep s) ->
  exists before after,
    s = before ++ item ++ after
    /\ (before = [] \/ exists items, before = items ++ [sep]).
Proof.
  intros H. destruct (split_head s) as [pieces Hs].
  assert (Ht : tl (split sep s) = pieces) by now rewrite Hs.
  rewrite Hs in H. destruct H as [H | H].
  - subst item. destruct (take_until_prefix s) as [after Ha].
    exists [], after. simpl. split; [exact Ha | now left].
  - rewrite <- Ht in H. apply split_tail_In in H.
    destruct H as (before & after & ->).
    exists (before ++ [sep]), after. split.
    + now rewrite <- app_assoc.
    + right. now exists before.
Qed.

(** What stands at the start of [s] or right after a separator opens a
    piece. *)
Lemma split_In_intro (before x : str) :
  before = [] \/ (exists items, before = items ++ [sep]) ->
  In (take_until sep x) (split sep (before ++ x)).
Proof.
  intros [-> | [items ->]].
  - simpl. destruct (split_head x) as [pieces ->]. now left.
  - rewrite <- app_assoc. simpl. rewrite split_app_sep.
    apply in_or_app. right.
    destruct (split_head x) as [pieces ->]. now left.
Qed.

Lemma split1_key (k v : str) :
  contains sep k = false -> split1 sep (k ++ sep :: v) = [k; v].
Proof.
  induction k as [|c k IH]; simpl; intros H.
  - now rewrite N.eqb_refl.
  - apply orb_false_iff in H. destruct H as [Hc Hk].
    rewrite N.eqb_sym, Hc. now rewrite IH.
Qed.

Lemma split1_inv (item : str) :
  contains sep item = true ->
  exists k v, split1 sep item = [k; v] /\ item = k ++ sep :: v.
Proof.
  induction item as [|c item IH]; simpl; [discriminate|].
  rewrite N.eqb_sym. destruct (N.eqb c sep) eqn:E; simpl.
  - intros _. apply N.eqb_eq in E. subst c. now exists [], item.
  - intros H. destruct (IH H) as (k & v & -> & ->).
    now exists (c :: k), v.
Qed.

Lemma contains_app (a b : str) :
  contains sep (a ++ b) = contains sep a || contains sep b.
Proof. apply existsb_app. Qed.

End Split.

(** *** Dicts *)

Lemma dict_contains_set {V} (d : dict V) (k : str) (v : V) (q : str) :
  dict_contains (dict_set d k v) q = dict_contains d q || str_eqb k q.
Proof.
  induction d as [|[k' v'] d IH]; simpl.
  - now rewrite orb_false_r.
  - destruct (str_eqb k' k) eqn:E; simpl.
    + apply str_eqb_eq in E. subst k'.
      destruct (str_eqb k q); simpl; [reflexivity|].
      now rewrite orb_false_r.
    + rewrite IH. now rewrite orb_assoc.
Qed.

Lemma dict_update_seq_pairs (pairs : list (list str)) :
  Forall (fun p => exists k v, p = [k; v]) pairs ->
  forall d, exists d',
    dict_update_seq d pairs = Return d'
    /\ forall q, dict_contains d' q = dict_contains d q || existsb (pair_key q) pairs.
Proof.
  induction 1 as [|p pairs (k & v & ->) _ IH]; intros d; simpl.
  - exists d. split; [reflexivity|]. intros q. now rewrite orb_false_r.
  - destruct (IH (dict_set d k v)) as (d' & -> & Hd').
    exists d'. split; [reflexivity|]. intros q.
    rewrite Hd', dict_contains_set. now rewrite orb_assoc.
Qed.

End PyFacts.

(* ================================================================== *)
(** ** The fallback callers *)
(* ================================================================== *)

Module FallbackServiceSpec.
Import Py FallbackService FallbackContract.

Section Callers.
Variable clock : nat -> float.
Variable llm_client : client.
Variables fallback_prompt gpt_deployment : str.

(** Both callers send their one request whatever the endpoint answers. *)
Lemma call_fallback_sent (s : state) :
  sent (snd (call_fallback clock llm_client fallback_prompt gpt_deployment s))
  = sent s ++ [plain_request fallback_prompt gpt_deployment].
Proof.
  unfold call_fallback, bind, time_time, chat_completions_create. simpl.
  fold (single_system_message fallback_prompt).
  fold (plain_request fallback_prompt gpt_deployment).
  destruct (create llm_client (sent s) _) as [completion|e]; [|reflexivity].
  destruct (Response.choices completion); reflexivity.
Qed.

Lemma cora_fallback_undecorated_sent (s : state) :
  sent (snd (cora_fallback_undecorated clock llm_client fallback_prompt gpt_deployment s))
  = sent s ++ [cora_request fallback_prompt gpt_deployment].
Proof.
  unfold cora_fallback_undecorated, bind, time_time, logger_info,
    chat_completions_create, emit. simpl.
  fold (single_system_message fallback_prompt).
  fold (cora_request fallback_prompt gpt_deployment).
  destruct (create llm_client (sent s) _) as [completion|e]; [|reflexivity].
  destruct (Response.choices completion); reflexivity.
Qed.

Lemma call_fallback_outcome (s : state) :
  fst (call_fallback clock llm_client fallback_prompt gpt_deployment s)
  = handed_back
      (create llm_client (sent s) (plain_request fallback_prompt gpt_deployment)).
Proof.
  unfold call_fallback, bind, time_time, chat_completions_create, handed_back. simpl.
  fold (single_system_message fallback_prompt).
  fold (plain_request fallback_prompt gpt_deployment).
  destruct (create llm_client (sent s) _) as [completion|e]; [|reflexivity].
  unfold first_choice_text. destruct (Response.choices completion); reflexivity.
Qed.

Lemma cora_fallback_undecorated_outcome (s : state) :
  fst (cora_fallback_undecorated clock llm_client fallback_prompt gpt_deployment s)
  = handed_back
      (create llm_client (sent s) (cora_request fallback_prompt gpt_deployment)).
Proof.
  unfold cora_fallback_undecorated, bind, time_time, logger_info,
    chat_completions_create, emit, handed_back. simpl.
  fold (single_system_message fallback_prompt).
  fold (cora_request fallback_prompt gpt_deployment).
  destruct (create llm_client (sent s) _) as [completion|e]; [|reflexivity].
  unfold first_choice_text. destruct (Response.choices completion); reflexivity.
Qed.

End Callers.

(** C6. Of the two fallback callers only [call_fallback] does what the claim
    says. It sends exactly one request (one system-role message whose text is
    the prompt, streaming disabled, temperature 0.7) and returns the message
    text of the first choice, and so does the function of lines 40-85 as
    written (with top-p 0.95, zero penalties and no stop sequence besides).
    But [cora_fallback] as line 39 binds it raises [TypeError] for every
    client, prompt and deployment: it sends no request, logs nothing and
    returns nothing. *)
Theorem cora_fallback_sends_no_request :
  forall (clock : nat -> float) (llm_client : client)
         (fallback_prompt gpt_deployment : str) (s : state),
    let plain := plain_request fallback_prompt gpt_deployment in
    let cora := cora_request fallback_prompt gpt_deployment in
    (sent (snd (call_fallback clock llm_client fallback_prompt gpt_deployment s))
       = sent s ++ [plain]
     /\ forall completion text,
          create llm_client (sent s) plain = Return completion ->
          first_choice_text completion = Some text ->
          fst (call_fallback clock llm_client fallback_prompt gpt_deployment s)
            = Return text)
    /\ (sent (snd (cora_fallback_undecorated clock llm_client fallback_prompt
                     gpt_deployment s))
          = sent s ++ [cora]
        /\ forall completion text,
             create llm_client (sent s) cora = Return completion ->
             first_choice_text completion = Some text ->
             fst (cora_fallback_undecorated clock llm_client fallback_prompt
                    gpt_deployment s)
               = Return text)
    /\ (cora_fallback llm_client fallback_prompt (Some gpt_deployment) s
          = (Raise (decorator_TypeError 3), s)
        /\ cora_fallback llm_client fallback_prompt None s
           = (Raise (decorator_TypeError 2), s)).
Proof.
  intros clock llm_client fallback_prompt gpt_deployment s plain cora.
  repeat split.
  - apply call_fallback_sent.
  - intros completion text Hc Hf.
    rewrite call_fallback_outcome. fold plain. rewrite Hc. simpl. now rewrite Hf.
  - apply cora_fallback_undecorated_sent.
  - intros completion text Hc Hf.
    rewrite cora_fallback_undecorated_outcome. fold cora. rewrite Hc. simpl.
    now rewrite Hf.
Qed.

Lemma cora_fallback_sends_no_request_example :
  fst (call_fallback FallbackExamples.frozen_clock FallbackExamples.answering_client
         (lit "ping") call_fallback_default initial)
    = Return (Some (lit "pong"))
  /\ cora_fallback FallbackExamples.answering_client (lit "ping")
       (Some cora_fallback_default) initial
     = (Raise (decorator_TypeError 3), initial).
Proof.
  destruct (@cora_fallback_sends_no_request FallbackExamples.frozen_clock
              FallbackExamples.answering_client (lit "ping") call_fallback_default initial)
    as [[_ Hplain] _].
  destruct (@cora_fallback_sends_no_request FallbackExamples.frozen_clock
              FallbackExamples.answering_client (lit "ping") cora_fallback_default initial)
    as [_ [_ [Hcora _]]].
  split.
  - apply (Hplain FallbackExamples.pong); reflexivity.
  - exact Hcora.
Defined.



End FallbackServiceSpec.

(* ================================================================== *)
(** ** The endpoint prober *)
(* ================================================================== *)

Module TestEndpointsSpec.
Import Py PyFacts TestEndpoints ProberContract.

(** *** The identifier check *)

(** One round of the loop of [test_agent_ids]: it returns, calls nothing,
    and only a blank Customer Loyalty id clears the flag. *)
Lemma agent_round (name : str) (agent_id : value) (flag : bool) (s : state) :
  exists line,
    (if truthy agent_id && truthy (option_map strip agent_id) then
       bind (getslice_to 20 agent_id)
         (fun shown =>
            bind (print (check_mark ++ lit " Agent ID - " ++ name ++ lit ": Configured ("
                           ++ shown ++ lit "...)"))
              (fun _ => ret flag))
     else
       bind (print (warning_sign ++ lit "  Agent ID - " ++ name ++ lit ": Not configured"))
         (fun _ => if str_eqb name (lit "Customer Loyalty") then ret false else ret flag)) s
    = (Return (if is_blank agent_id
               then (if str_eqb name (lit "Customer Loyalty") then false else flag)
               else flag),
       {| stdout := stdout s ++ [line]; calls := calls s |}).
Proof.
  rewrite and_strip_truthy.
  destruct (is_blank agent_id) eqn:B; cbn [negb].
  - eexists. unfold bind, print, ret.
    destruct (str_eqb name (lit "Customer Loyalty")); reflexivity.
  - destruct agent_id as [a|]; [|discriminate].
    eexists. reflexivity.
Qed.

(** A loop whose rounds return, print and call nothing does so as a
    whole. *)
Lemma for_each_quiet {A X} (body : A -> X -> M state A) (step : A -> X -> A) :
  (forall acc x s, exists lines,
      body acc x s
      = (Return (step acc x), {| stdout := stdout s ++ lines; calls := calls s |})) ->
  forall xs acc s, exists lines,
    for_each xs acc body s
    = (Return (fold_left step xs acc),
       {| stdout := stdout s ++ lines; calls := calls s |}).
Proof.
  intros Hbody xs. induction xs as [|x xs IH]; intros acc s; simpl.
  - exists []. unfold ret. rewrite app_nil_r. now destruct s.
  - unfold bind. destruct (Hbody acc x s) as [lines ->].
    destruct (IH (step acc x) {| stdout := stdout s ++ lines; calls := calls s |})
      as [lines' ->].
    exists (lines ++ lines'). simpl. now rewrite app_assoc.
Qed.

Lemma test_agent_ids_run (environ : str -> value) (s : state) :
  exists lines,
    test_agent_ids environ s
    = (Return (negb (is_blank (environ (lit "customer_loyalty")))),
       {| stdout := stdout s ++ lines; calls := calls s |}).
Proof.
  unfold test_agent_ids.
  change (dict_display _) with
    [ (lit "Customer Loyalty", os_getenv environ "customer_loyalty");
      (lit "Inventory Agent", os_getenv environ "inventory_agent");
      (lit "Interior Designer", os_getenv environ "interior_designer");
      (lit "Cora (Shopper)", os_getenv environ "cora");
      (lit "Cart Manager", os_getenv environ "cart_manager") ].
  unfold os_getenv. cbv zeta. unfold bind at 1.
  pose (step := fun (flag : bool) (item : str * value) =>
                  if is_blank (snd item)
                  then (if str_eqb (fst item) (lit "Customer Loyalty")
                        then false else flag)
                  else flag).
  match goal with
  | |- context [for_each ?xs ?acc ?body] =>
      assert (Hround : forall flag item s0, exists lines,
                 body flag item s0
                 = (Return (step flag item),
                    {| stdout := stdout s0 ++ lines; calls := calls s0 |}));
      [| destruct (for_each_quiet body step Hround xs acc s) as [lines ->] ]
  end.
  - intros flag [name agent_id] s0.
    destruct (agent_round name agent_id flag s0) as [line H].
    exists [line]. exact H.
  - exists lines. unfold ret. f_equal. f_equal.
    subst step. cbn [fold_left fst snd].
    destruct (is_blank (environ (lit "customer_loyalty")));
      destruct (is_blank (environ (lit "inventory_agent")));
      destruct (is_blank (environ (lit "interior_designer")));
      destruct (is_blank (environ (lit "cora")));
      destruct (is_blank (environ (lit "cart_manager"))); reflexivity.
Qed.

Lemma is_blank_iff (v : value) : is_blank v = true <-> blank v.
Proof.
  destruct v as [a|]; simpl; [apply is_blank_Forall | tauto].
Qed.

(** *** The configuration guards *)

Lemma configured_false (c : check) (environ : str -> value) (name : string) :
  In name (required c) -> truthy (environ (lit name)) = false ->
  configured c environ = false.
Proof.
  intros Hin Hv. unfold configured.
  destruct (forallb _ (required c)) eqn:E; [|reflexivity].
  rewrite forallb_forall in E. rewrite (E name Hin) in Hv. discriminate.
Qed.

Lemma guard_short_circuits (c : check) (environ : str -> value) (w : world) (s : state) :
  guarded c = true -> configured c environ = false ->
  run c environ w s
  = (Return false,
     {| stdout := stdout s ++ [missing_configuration_line c]; calls := calls s |}).
Proof.
  intros Hg Hc.
  destruct c; try discriminate Hg; clear Hg;
    unfold run, test_azure_openai, test_ai_search, test_cosmos_db,
      test_storage_account, test_application_insights, os_getenv; cbv zeta.
  1-4: match goal with
       | |- context [negb (all ?vs)] =>
           replace (all vs) with false by (symmetry; exact Hc)
       end; reflexivity.
  unfold configured in Hc. simpl in Hc. rewrite andb_true_r in Hc.
  rewrite Hc. reflexivity.
Qed.

(** *** The shared endpoint test *)

Lemma test_endpoint_result (w : world) (name url : str)
    (headers : option (dict value)) (s : state) :
  fst (test_endpoint w name url headers s)
  = match http_get w (calls s) url headers 10 with
    | Return status_code => Return (status_code <? 500)%Z
    | Raise e => if isinstance_RequestException e then Return false else Raise e
    end.
Proof.
  unfold test_endpoint, try_except, bind, requests_get. simpl.
  destruct (http_get w (calls s) url headers 10) as [status_code|e].
  - destruct (status_code <? 500)%Z; reflexivity.
  - destruct (isinstance_RequestException e); reflexivity.
Qed.

Lemma test_endpoint_calls (w : world) (name url : str)
    (headers : option (dict value)) (s : state) :
  calls (snd (test_endpoint w name url headers s))
  = calls s ++ [RequestsGet url headers 10].
Proof.
  unfold test_endpoint, try_except, bind, requests_get. simpl.
  destruct (http_get w (calls s) url headers 10) as [status_code|e].
  - destruct (status_code <? 500)%Z; reflexivity.
  - destruct (isinstance_RequestException e); reflexivity.
Qed.

Lemma truthy_Some (v : value) : truthy v = true -> exists a, v = Some a.
Proof. destruct v as [a|]; [now exists a | discriminate]. Qed.

(** With their configuration in place the two raw HTTP probes are the
    shared endpoint test, at a request the environment fixes. *)
Lemma test_azure_openai_configured (environ : str -> value) :
  configured AzureOpenAI environ = true ->
  exists url headers, forall w s,
    test_azure_openai environ w s
    = test_endpoint w (lit "Azure OpenAI") url (Some headers) s.
Proof.
  intros Hc. unfold test_azure_openai, os_getenv. cbv zeta.
  replace (all _) with true by (symmetry; exact Hc).
  unfold configured in Hc. simpl in Hc.
  apply andb_true_iff in Hc. destruct Hc as [He _].
  apply truthy_Some in He. destruct He as [base ->].
  do 2 eexists. intros w s. reflexivity.
Qed.

Lemma test_ai_search_configured (environ : str -> value) :
  configured AISearch environ = true ->
  exists url headers, forall w s,
    test_ai_search environ w s
    = test_endpoint w (lit "AI Search") url (Some headers) s.
Proof.
  intros Hc. unfold test_ai_search, os_getenv. cbv zeta.
  replace (all _) with true by (symmetry; exact Hc).
  unfold configured in Hc. simpl in Hc.
  apply andb_true_iff in Hc. destruct Hc as [He _].
  apply truthy_Some in He. destruct He as [base ->].
  do 2 eexists. intros w s. reflexivity.
Qed.

(** *** The telemetry check *)

Lemma connection_string_pairs (text : str) :
  Forall (fun p => exists k v, p = [k; v])
    (map (split1 equals_sign) (filter (contains equals_sign) (split semicolon text))).
Proof.
  apply Forall_forall. intros p Hp.
  apply in_map_iff in Hp. destruct Hp as (item & <- & Hitem).
  apply filter_In in Hitem. destruct Hitem as [_ Heq].
  destruct (@split1_inv equals_sign item Heq) as (k & v & -> & _).
  now exists k, v.
Qed.

(** The parsed dict has a key exactly when [key=] opens an item. *)
Lemma has_key_iff (key text : str) :
  contains equals_sign key = false -> contains semicolon key = false ->
  has_key key text = true
  <-> exists before rest,
        text = before ++ key ++ equals_sign :: rest
        /\ (before = [] \/ exists items, before = items ++ [semicolon]).
Proof.
  intros Hne Hns. unfold has_key. rewrite existsb_exists. split.
  - intros (p & Hp & Hk).
    apply in_map_iff in Hp. destruct Hp as (item & <- & Hitem).
    apply filter_In in Hitem. destruct Hitem as [Hin Heq].
    destruct (@split1_inv equals_sign item Heq) as (k & v & Hsplit & ->).
    rewrite Hsplit in Hk. simpl in Hk. apply str_eqb_eq in Hk. subst k.
    destruct (@split_In_inv semicolon text _ Hin) as (before & after & -> & Hb).
    exists before, (v ++ after). split; [|exact Hb].
    now rewrite <- !app_assoc.
  - intros (before & rest & -> & Hb).
    pose proof (@split_In_intro semicolon before (key ++ equals_sign :: rest) Hb) as Hin.
    rewrite take_until_app in Hin by exact Hns.
    change (take_until semicolon (equals_sign :: rest))
      with (equals_sign :: take_until semicolon rest) in Hin.
    exists [key; take_until semicolon rest]. split.
    + rewrite <- (@split1_key equals_sign key (take_until semicolon rest) Hne).
      apply in_map. apply filter_In. split; [exact Hin|].
      rewrite contains_app. apply orb_true_iff. right. reflexivity.
    + simpl. apply str_eqb_refl.
Qed.

Lemma test_application_insights_run (environ : str -> value) (s : state) (text : str) :
  environ (lit "APPLICATIONINSIGHTS_CONNECTION_STRING") = Some text ->
  exists line,
    test_application_insights environ s
    = (Return (has_key (lit "InstrumentationKey") text
               && has_key (lit "IngestionEndpoint") text),
       {| stdout := stdout s ++ [line]; calls := calls s |}).
Proof.
  intros Henv. unfold test_application_insights, os_getenv. cbv zeta.
  rewrite Henv. destruct text as [|c text].
  - eexists. reflexivity.
  - cbn [truthy negb]. unfold try_except, bind, receiver, ret, lift, dict_of_pairs.
    destruct (@dict_update_seq_pairs _ (connection_string_pairs (c :: text)) [])
      as (parts & -> & Hparts).
    rewrite !Hparts. cbn [dict_contains existsb orb]. fold (has_key (lit "InstrumentationKey") (c :: text)).
    fold (has_key (lit "IngestionEndpoint") (c :: text)).
    destruct (has_key (lit "InstrumentationKey") (c :: text)
              && has_key (lit "IngestionEndpoint") (c :: text));
      eexists; reflexivity.
Qed.

(** *** The SDK checks *)

Lemma sdk_checks_return (c : check) (environ : str -> value) (w : world) (s : state) :
  c = CosmosDB \/ c = StorageAccount ->
  (forall history k e, sdk w history k = Raise e -> isinstance_Exception e = true) ->
  exists b s', run c environ w s = (Return b, s').
Proof.
  intros Hc Hsdk.
  destruct (configured c environ) eqn:Hcfg.
  2:{ rewrite guard_short_circuits; [now eauto | now destruct Hc; subst | exact Hcfg]. }
  destruct Hc; subst c;
    unfold run, test_cosmos_db, test_storage_account, os_getenv; cbv zeta;
    (replace (all _) with true by (symmetry; exact Hcfg));
    cbn [negb]; unfold try_except, bind, sdk_call, print, ret; cbn [calls stdout];
    repeat match goal with
      | |- context [sdk w ?h ?k] =>
          let E := fresh "E" in
          destruct (sdk w h k) as [[]|?e] eqn:E;
          [| rewrite (Hsdk _ _ _ E); now eauto ]
      end; now eauto.
Qed.

(** *** Every check returns when the services raise what it handles *)

Lemma check_returns (c : check) (environ : str -> value) (w : world) (s : state) :
  raises_handled w -> exists b s', run c environ w s = (Return b, s').
Proof.
  intros [Hhttp Hsdk].
  destruct c.
  - destruct (configured AzureOpenAI environ) eqn:Hcfg.
    + destruct (test_azure_openai_configured environ Hcfg) as (url & headers & H).
      simpl. rewrite H.
      pose proof (test_endpoint_result w (lit "Azure OpenAI") url (Some headers) s) as R.
      destruct (test_endpoint w (lit "Azure OpenAI") url (Some headers) s) as [r s'].
      simpl in R. subst r.
      destruct (http_get w (calls s) url (Some headers) 10) as [code|e] eqn:E;
        [now eauto|]. rewrite (Hhttp _ _ _ _ _ E). now eauto.
    + rewrite guard_short_circuits by easy. now eauto.
  - destruct (configured AISearch environ) eqn:Hcfg.
    + destruct (test_ai_search_configured environ Hcfg) as (url & headers & H).
      simpl. rewrite H.
      pose proof (test_endpoint_result w (lit "AI Search") url (Some headers) s) as R.
      destruct (test_endpoint w (lit "AI Search") url (Some headers) s) as [r s'].
      simpl in R. subst r.
      destruct (http_get w (calls s) url (Some headers) 10) as [code|e] eqn:E;
        [now eauto|]. rewrite (Hhttp _ _ _ _ _ E). now eauto.
    + rewrite guard_short_circuits by easy. now eauto.
  - apply sdk_checks_return; [now left | exact Hsdk].
  - apply sdk_checks_return; [now right | exact Hsdk].
  - simpl. destruct (environ (lit "APPLICATIONINSIGHTS_CONNECTION_STRING")) as [text|] eqn:E.
    + destruct (test_application_insights_run environ s E) as [line ->]. now eauto.
    + change (test_application_insights environ s)
        with (run ApplicationInsights environ w s).
      rewrite guard_short_circuits; [now eauto | reflexivity |].
      apply configured_false with (name := "APPLICATIONINSIGHTS_CONNECTION_STRING"%string);
        [now left | now rewrite E].
  - simpl. destruct (test_agent_ids_run environ s) as [lines ->]. now eauto.
Qed.

(** *** The aggregation *)

Lemma run_all_length (cs : list check) (environ : str -> value) (w : world) :
  forall s rs s',
    run_all cs environ w s = (Return rs, s') -> List.length rs = List.length cs.
Proof.
  induction cs as [|c cs IH]; intros s rs s'; simpl.
  - unfold ret. intros H. now inversion H.
  - unfold bind. destruct (run c environ w s) as [[r|e] s1]; [|discriminate].
    destruct (run_all cs environ w s1) as [[rs'|e] s2] eqn:E; [|discriminate].
    unfold ret. intros H. inversion H. subst. simpl. f_equal. exact (IH _ _ _ E).
Qed.

Lemma main_results_run_all (environ : str -> value) (w : world) (s : state) :
  main_results environ w s
  = bind (run_all all_checks environ w)
      (fun rs => ret (combine (map service_name all_checks) rs)) s.
Proof.
  unfold main_results, all_checks, run_all, run, bind, ret.
  destruct (test_azure_openai environ w s) as [[r1|e] s1]; [|reflexivity].
  destruct (test_ai_search environ w s1) as [[r2|e] s2]; [|reflexivity].
  destruct (test_cosmos_db environ w s2) as [[r3|e] s3]; [|reflexivity].
  destruct (test_storage_account environ w s3) as [[r4|e] s4]; [|reflexivity].
  destruct (test_application_insights environ s4) as [[r5|e] s5]; [|reflexivity].
  destruct (test_agent_ids environ s5) as [[r6|e] s6]; reflexivity.
Qed.

Lemma main_summary_run (results : dict bool) (s : state) :
  exists verdict,
    main_summary results s
    = (Return (if all (values results) then 0 else 1)%Z,
       {| stdout := stdout s
                      ++ summary_lines (count_true (values results)) (len results) verdict;
          calls := calls s |}).
Proof.
  unfold main_summary, bind, print, ret, summary_lines. cbn [stdout calls].
  destruct (all (values results)); eexists; cbn [stdout calls];
    rewrite <- !app_assoc; reflexivity.
Qed.

Lemma main_unfold (environ : str -> value) (w : world) (s : state) :
  main environ w s = bind (main_results environ w) main_summary (after_banner s).
Proof.
  unfold main, after_banner, bind at 1 2 3 4, print. cbn [stdout calls].
  rewrite <- !app_assoc. reflexivity.
Qed.

(** [main] after the six checks have returned. *)
Lemma main_run (environ : str -> value) (w : world) (s : state)
    (rs : list bool) (s' : state) :
  run_all all_checks environ w (after_banner s) = (Return rs, s') ->
  exists verdict,
    main environ w s
    = (Return (if all rs then 0 else 1)%Z,
       {| stdout := stdout s' ++ summary_lines (count_true rs) 6 verdict;
          calls := calls s' |})
    /\ main_results environ w (after_banner s)
       = (Return (combine (map service_name all_checks) rs), s').
Proof.
  intros Hrun. pose proof (run_all_length _ _ _ _ Hrun) as Hlen.
  rewrite main_unfold. unfold bind at 1. rewrite main_results_run_all.
  unfold bind at 1. rewrite Hrun. unfold ret.
  destruct rs as [|r1 [|r2 [|r3 [|r4 [|r5 [|r6 [|r7 rs]]]]]]]; try discriminate Hlen.
  destruct (main_summary_run (combine (map service_name all_checks) [r1; r2; r3; r4; r5; r6]) s')
    as [verdict ->].
  exists verdict. split; [reflexivity|].
  unfold bind. now rewrite Hrun.
Qed.

Lemma all_true_iff (rs : list bool) : all rs = true <-> Forall (fun r => r = true) rs.
Proof.
  unfold all. rewrite forallb_forall, Forall_forall. tauto.
Qed.

(** Every combination of six results occurs: there are an environment and
    services under which the checks return exactly these, and [main] then
    returns 0 when all are true and 1 otherwise. *)
Lemma every_combination_occurs (r1 r2 r3 r4 r5 r6 : bool) :
  let environ := ProberExamples.environ_for r5 r6 in
  let w := ProberExamples.world_for r1 r2 r3 r4 in
  fst (run_all all_checks environ w (after_banner initial))
    = Return [r1; r2; r3; r4; r5; r6]
  /\ fst (main environ w initial)
     = Return (if r1 && r2 && r3 && r4 && r5 && r6 then 0 else 1)%Z.
Proof.
  destruct r1, r2, r3, r4, r5, r6; vm_compute; split; reflexivity.
Qed.

(** C1. Once the six checks have returned, [main] returns exit code 0 if
    all six results are true and 1 otherwise; the two cases are exclusive,
    so 0 is returned if and only if all six are true. *)
Theorem main_exit_code :
  forall (environ : str -> value) (w : world) (s : state)
         (rs : list bool) (s' : state),
    run_all all_checks environ w (after_banner s) = (Return rs, s') ->
    List.length rs = 6%nat
    /\ (fst (main environ w s) = Return 0%Z <-> Forall (fun r => r = true) rs)
    /\ (fst (main environ w s) = Return 1%Z <-> ~ Forall (fun r => r = true) rs).
Proof.
  intros environ w s rs s' Hrun.
  split; [exact (run_all_length _ _ _ _ Hrun)|].
  destruct (main_run _ _ _ Hrun) as (verdict & -> & _). cbn [fst].
  rewrite <- all_true_iff.
  destruct (all rs); split; split; intros H;
    try reflexivity; try discriminate; try (inversion H; fail);
    try (exfalso; now apply H).
Qed.

Lemma main_exit_code_example :
  fst (main ProberExamples.full_environ (ProberExamples.answering 200) initial)
    = Return 0%Z.
Proof.
  apply (@main_exit_code ProberExamples.full_environ (ProberExamples.answering 200)
           initial [true; true; true; true; true; true]
           (snd (run_all all_checks ProberExamples.full_environ
                   (ProberExamples.answering 200) (after_banner initial)))).
  - vm_compute. reflexivity.
  - repeat constructor.
Defined.

Lemma service_names_NoDup : NoDup (map service_name all_checks).
Proof.
  vm_compute.
  repeat (constructor; [simpl; intuition discriminate|]). constructor.
Qed.

Lemma count_true_bounds (rs : list bool) :
  (0 <= count_true rs <= Z.of_nat (List.length rs))%Z.
Proof.
  unfold count_true. pose proof (filter_length_le (fun v : bool => v) rs). lia.
Qed.

(** C9. After the six checks have run, the result mapping holds exactly one
    entry for each of the six services, in the order of the checks and with
    the check's result as value, and the summary prints a passed and a failed
    count that sum to the total of six. *)
Theorem main_results_and_counts :
  forall (environ : str -> value) (w : world) (s : state)
         (rs : list bool) (s' : state),
    run_all all_checks environ w (after_banner s) = (Return rs, s') ->
    exists (results : dict bool) (passed failed : Z) (verdict : str),
      main_results environ w (after_banner s) = (Return results, s')
      /\ keys results = map service_name all_checks
      /\ values results = rs
      /\ NoDup (keys results)
      /\ len results = 6%Z
      /\ stdout (snd (main environ w s))
         = stdout s'
             ++ [ []; rule; lit "Summary"; rule;
                  check_mark ++ lit " Passed: " ++ str_of_int passed ++ lit "/"
                    ++ str_of_int 6;
                  cross_mark ++ lit " Failed: " ++ str_of_int failed ++ lit "/"
                    ++ str_of_int 6;
                  verdict ]
      /\ passed = count_true rs
      /\ (0 <= passed)%Z /\ (0 <= failed)%Z
      /\ (passed + failed = 6)%Z.
Proof.
  intros environ w s rs s' Hrun.
  pose proof (run_all_length _ _ _ _ Hrun) as Hlen.
  destruct (main_run _ _ _ Hrun) as (verdict & Hmain & Hresults).
  pose proof (count_true_bounds rs) as Hb. rewrite Hlen in Hb.
  change (Z.of_nat (List.length all_checks)) with 6%Z in Hb.
  exists (combine (map service_name all_checks) rs), (count_true rs),
    (6 - count_true rs)%Z, verdict.
  destruct rs as [|r1 [|r2 [|r3 [|r4 [|r5 [|r6 [|r7 rs]]]]]]]; try discriminate Hlen.
  repeat split; try reflexivity; try lia.
  - exact Hresults.
  - exact service_names_NoDup.
  - rewrite Hmain. reflexivity.
Qed.

Lemma main_results_and_counts_example :
  exists (results : dict bool) (passed failed : Z) (verdict : str),
    main_results ProberExamples.full_environ ProberExamples.unreachable
      (after_banner initial)
    = (Return results,
       snd (run_all all_checks ProberExamples.full_environ ProberExamples.unreachable
              (after_banner initial)))
    /\ keys results = map service_name all_checks
    /\ values results = [false; false; false; false; true; true]
    /\ NoDup (keys results)
    /\ len results = 6%Z
    /\ stdout (snd (main ProberExamples.full_environ ProberExamples.unreachable initial))
       = stdout (snd (run_all all_checks ProberExamples.full_environ
                        ProberExamples.unreachable (after_banner initial)))
           ++ [ []; rule; lit "Summary"; rule;
                check_mark ++ lit " Passed: " ++ str_of_int passed ++ lit "/"
                  ++ str_of_int 6;
                cross_mark ++ lit " Failed: " ++ str_of_int failed ++ lit "/"
                  ++ str_of_int 6;
                verdict ]
    /\ passed = count_true [false; false; false; false; true; true]
    /\ (0 <= passed)%Z /\ (0 <= failed)%Z
    /\ (passed + failed = 6)%Z.
Proof.
  apply (@main_results_and_counts ProberExamples.full_environ
           ProberExamples.unreachable initial).
  vm_compute. reflexivity.
Defined.

(** C5. The agent-identifier check returns false if and only if the
    Customer Loyalty agent id is absent or blank; it always returns, and two
    environments that agree on that one id give the same result, whatever
    they hold for the other four identifiers. *)
Theorem agent_ids_required_identifier :
  forall (environ : str -> value) (s : state),
    (fst (test_agent_ids environ s) = Return false
     <-> blank (environ (lit "customer_loyalty")))
    /\ (fst (test_agent_ids environ s) = Return true
        <-> ~ blank (environ (lit "customer_loyalty")))
    /\ (forall (environ' : str -> value) (s0 : state),
          environ' (lit "customer_loyalty") = environ (lit "customer_loyalty") ->
          fst (test_agent_ids environ' s0) = fst (test_agent_ids environ s)).
Proof.
  intros environ s.
  destruct (test_agent_ids_run environ s) as [lines ->]. cbn [fst].
  rewrite <- is_blank_iff.
  repeat split.
  - destruct (is_blank _); [reflexivity | discriminate].
  - intros ->. reflexivity.
  - intros H B. rewrite B in H. discriminate.
  - destruct (is_blank _); [intros H; now elim H | reflexivity].
  - intros environ' s0 Heq.
    destruct (test_agent_ids_run environ' s0) as [lines' ->]. cbn [fst].
    now rewrite Heq.
Qed.

(** C4. For a connection string that is set, the telemetry check returns
    true when both [InstrumentationKey=] and [IngestionEndpoint=] open one of
    its semicolon-delimited items, and false when either does not; it never
    calls a service. *)
Theorem application_insights_keys :
  forall (environ : str -> value) (s : state) (text : str),
    environ (lit "APPLICATIONINSIGHTS_CONNECTION_STRING") = Some text ->
    (key_present "InstrumentationKey" text /\ key_present "IngestionEndpoint" text ->
     fst (test_application_insights environ s) = Return true)
    /\ (~ (key_present "InstrumentationKey" text
           /\ key_present "IngestionEndpoint" text) ->
        fst (test_application_insights environ s) = Return false)
    /\ calls (snd (test_application_insights environ s)) = calls s.
Proof.
  intros environ s text Henv.
  destruct (test_application_insights_run environ s Henv) as [line ->].
  cbn [fst snd calls].
  assert (Hi : has_key (lit "InstrumentationKey") text = true
               <-> key_present "InstrumentationKey" text)
    by (apply has_key_iff; reflexivity).
  assert (He : has_key (lit "IngestionEndpoint") text = true
               <-> key_present "IngestionEndpoint" text)
    by (apply has_key_iff; reflexivity).
  repeat split.
  - intros [Hk1 Hk2]. apply Hi in Hk1. apply He in Hk2. now rewrite Hk1, Hk2.
  - intros Hn.
    destruct (has_key (lit "InstrumentationKey") text) eqn:E1;
      destruct (has_key (lit "IngestionEndpoint") text) eqn:E2; try reflexivity.
    elim Hn. split; [now apply Hi | now apply He].
Qed.

Lemma application_insights_keys_example :
  fst (test_application_insights ProberExamples.full_environ initial) = Return true.
Proof.
  apply (@application_insights_keys ProberExamples.full_environ initial
           ProberExamples.valid_connection_string eq_refl).
  split.
  - exists [], (lit "abc;IngestionEndpoint=https://in.example/").
    split; [reflexivity | now left].
  - exists (lit "InstrumentationKey=abc;"), (lit "https://in.example/").
    split; [reflexivity | right; now exists (lit "InstrumentationKey=abc")].
Defined.

(** The match is exact: a cut-short string, and a key written with a leading
    blank, do not pass. *)
Example application_insights_cut_short :
  fst (test_application_insights (ProberExamples.environ_for false true) initial)
    = Return false.
Proof. vm_compute. reflexivity. Qed.

Example application_insights_blank_before_key :
  fst (test_application_insights
         (ProberExamples.environ_of
            [ ("APPLICATIONINSIGHTS_CONNECTION_STRING"%string,
               lit "InstrumentationKey=abc; IngestionEndpoint=https://in.example/") ])
         initial)
    = Return false.
Proof. vm_compute. reflexivity. Qed.

(** *** Absent and empty configuration *)

Lemma falsy_short_circuits (c : check) (environ : str -> value) (w : world)
    (s : state) (name : string) :
  In name (required c) -> truthy (environ (lit name)) = false ->
  is_blank (environ (lit name)) = true ->
  fst (run c environ w s) = Return false
  /\ calls (snd (run c environ w s)) = calls s
  /\ (guarded c = true ->
      stdout (snd (run c environ w s)) = stdout s ++ [missing_configuration_line c]).
Proof.
  intros Hin Hfalsy Hblank.
  destruct (guarded c) eqn:Hg.
  - rewrite guard_short_circuits;
      [| exact Hg | exact (@configured_false c environ name Hin Hfalsy)].
    repeat split.
  - destruct c; try discriminate Hg.
    destruct Hin as [<- | []]. simpl.
    destruct (test_agent_ids_run environ s) as [lines ->].
    cbn [fst snd calls]. rewrite Hblank. repeat split. discriminate.
Qed.

Lemma unsetenv_same (environ : str -> value) (name : string) :
  unsetenv environ name (lit name) = None.
Proof. unfold unsetenv. now rewrite str_eqb_refl. Qed.

Lemma test_agent_ids_empty_as_unset (environ : str -> value) (s : state) :
  environ (lit "customer_loyalty") = Some [] ->
  test_agent_ids environ s = test_agent_ids (unsetenv environ "customer_loyalty") s.
Proof.
  intros H. unfold test_agent_ids, os_getenv, unsetenv. rewrite H. reflexivity.
Qed.

(** C3. For each of the six checks: when a variable the check requires is
    absent from the environment, the check returns false and the record of
    calls into the HTTP library and the SDK is what it was before. *)
Theorem absent_configuration_no_call :
  forall (c : check) (environ : str -> value) (w : world) (s : state)
         (name : string),
    In name (required c) ->
    environ (lit name) = None ->
    fst (run c environ w s) = Return false
    /\ calls (snd (run c environ w s)) = calls s.
Proof.
  intros c environ w s name Hin Habsent.
  destruct (@falsy_short_circuits c environ w s name Hin) as (Hr & Hc & _);
    try (rewrite Habsent; reflexivity).
  now split.
Qed.

Lemma absent_configuration_no_call_example :
  fst (run CosmosDB ProberExamples.empty_environ ProberExamples.unreachable initial)
    = Return false
  /\ calls (snd (run CosmosDB ProberExamples.empty_environ ProberExamples.unreachable
                   initial))
     = calls initial.
Proof.
  apply (@absent_configuration_no_call CosmosDB ProberExamples.empty_environ
           ProberExamples.unreachable initial "DATABASE_NAME"%string).
  - simpl. tauto.
  - reflexivity.
Defined.

(** C10. A required variable that is set to the empty string is treated
    exactly like an absent one: the run of the check equals the run with the
    variable removed, it returns false without calling a service, and a
    guarded check reports the missing configuration. *)
Theorem empty_configuration_as_absent :
  forall (c : check) (environ : str -> value) (w : world) (s : state)
         (name : string),
    In name (required c) ->
    environ (lit name) = Some [] ->
    run c environ w s = run c (unsetenv environ name) w s
    /\ fst (run c environ w s) = Return false
    /\ calls (snd (run c environ w s)) = calls s
    /\ (guarded c = true ->
        stdout (snd (run c environ w s)) = stdout s ++ [missing_configuration_line c]).
Proof.
  intros c environ w s name Hin Hempty.
  split.
  - destruct (guarded c) eqn:Hg.
    + rewrite !guard_short_circuits; try exact Hg; try reflexivity.
      * apply configured_false with (name := name); [exact Hin|].
        now rewrite unsetenv_same.
      * apply configured_false with (name := name); [exact Hin|].
        now rewrite Hempty.
    + destruct c; try discriminate Hg.
      destruct Hin as [<- | []]. simpl.
      now apply test_agent_ids_empty_as_unset.
  - apply (@falsy_short_circuits c environ w s name Hin); now rewrite Hempty.
Qed.

Lemma empty_configuration_as_absent_example :
  run AISearch ProberExamples.empty_search_key_environ (ProberExamples.answering 200)
    initial
  = run AISearch (unsetenv ProberExamples.empty_search_key_environ "SEARCH_KEY")
      (ProberExamples.answering 200) initial
  /\ fst (run AISearch ProberExamples.empty_search_key_environ
            (ProberExamples.answering 200) initial)
     = Return false
  /\ calls (snd (run AISearch ProberExamples.empty_search_key_environ
                   (ProberExamples.answering 200) initial))
     = calls initial
  /\ (guarded AISearch = true ->
      stdout (snd (run AISearch ProberExamples.empty_search_key_environ
                     (ProberExamples.answering 200) initial))
      = stdout initial ++ [missing_configuration_line AISearch]).
Proof.
  apply (@empty_configuration_as_absent AISearch
           ProberExamples.empty_search_key_environ (ProberExamples.answering 200) initial
           "SEARCH_KEY"%string).
  - simpl. tauto.
  - reflexivity.
Defined.

(** *** The status-code policy *)

Lemma raw_http_probe_configured (c : check) (environ : str -> value) :
  raw_http_probe c = true -> configured c environ = true ->
  exists url headers, forall w s,
    run c environ w s = test_endpoint w (service_name c) url (Some headers) s.
Proof.
  intros Hp Hc. destruct c; try discriminate Hp.
  - exact (test_azure_openai_configured environ Hc).
  - exact (test_ai_search_configured environ Hc).
Qed.

(** C2. The shared endpoint test returns true for every response whose
    status code is under 500 (404, 401 and 403 among them), false for every
    status of 500 or above, and false for every exception of the
    [RequestException] family; each of the two raw HTTP probes, once
    configured, is this test at one request, so 404 yields true and 500
    false for the search-index probe as well. *)
Theorem endpoint_status_policy :
  (forall (w : world) (name url : str) (headers : option (dict value)) (s : state),
      (forall status_code,
          http_get w (calls s) url headers 10 = Return status_code ->
          ((status_code < 500)%Z ->
           fst (test_endpoint w name url headers s) = Return true)
          /\ ((500 <= status_code)%Z ->
              fst (test_endpoint w name url headers s) = Return false))
      /\ (forall e,
            http_get w (calls s) url headers 10 = Raise e ->
            isinstance_RequestException e = true ->
            fst (test_endpoint w name url headers s) = Return false))
  /\ (forall (c : check) (environ : str -> value),
        raw_http_probe c = true -> configured c environ = true ->
        exists url headers, forall (w : world) (s : state),
          run c environ w s = test_endpoint w (service_name c) url headers s
          /\ (http_get w (calls s) url headers 10 = Return 404%Z ->
              fst (run c environ w s) = Return true)
          /\ (http_get w (calls s) url headers 10 = Return 401%Z ->
              fst (run c environ w s) = Return true)
          /\ (http_get w (calls s) url headers 10 = Return 403%Z ->
              fst (run c environ w s) = Return true)
          /\ (http_get w (calls s) url headers 10 = Return 500%Z ->
              fst (run c environ w s) = Return false)).
Proof.
  split.
  - intros w name url headers s. split.
    + intros status_code H. rewrite test_endpoint_result, H. split; intros Hs.
      * apply Z.ltb_lt in Hs. now rewrite Hs.
      * apply Z.ltb_ge in Hs. now rewrite Hs.
    + intros e H He. now rewrite test_endpoint_result, H, He.
  - intros c environ Hp Hc.
    destruct (raw_http_probe_configured c environ Hp Hc) as (url & headers & H).
    exists url, (Some headers). intros w s. rewrite H.
    repeat split; intros Hget; now rewrite test_endpoint_result, Hget.
Qed.

Lemma endpoint_status_policy_example :
  fst (run AISearch ProberExamples.full_environ (ProberExamples.answering 404) initial)
    = Return true
  /\ fst (run AISearch ProberExamples.full_environ (ProberExamples.answering 500) initial)
     = Return false.
Proof.
  destruct (proj2 endpoint_status_policy AISearch ProberExamples.full_environ
              eq_refl eq_refl) as (url & headers & H).
  split.
  - destruct (H (ProberExamples.answering 404) initial) as (_ & H404 & _).
    apply H404. reflexivity.
  - destruct (H (ProberExamples.answering 500) initial) as (_ & _ & _ & _ & H500).
    apply H500. reflexivity.
Defined.

(** *** Failures become false *)

Lemma no_call_no_raise (w : world) (s0 s1 : state) :
  calls s1 = calls s0 -> ~ call_raised_between w s0 s1.
Proof.
  intros H (before & k & after & E & _). rewrite H in E.
  apply (f_equal (@List.length call)) in E.
  rewrite !length_app in E. simpl in E. lia.
Qed.

Lemma test_endpoint_raised (w : world) (name url : str)
    (headers : option (dict value)) (s0 s1 : state) (b : bool) :
  test_endpoint w name url headers s0 = (Return b, s1) ->
  call_raised_between w s0 s1 -> b = false.
Proof.
  intros Hrun (before & k & after & E & Hk).
  pose proof (test_endpoint_calls w name url headers s0) as Hc.
  pose proof (test_endpoint_result w name url headers s0) as Hr.
  rewrite Hrun in Hc, Hr. cbn [fst snd] in Hc, Hr.
  rewrite Hc in E. apply app_inv_head in E.
  destruct before as [|k0 before]; simpl in E.
  - injection E as <- _. simpl in Hk. rewrite app_nil_r in Hk.
    destruct (http_get w (calls s0) url headers 10) as [code|e]; [discriminate|].
    destruct (isinstance_RequestException e); congruence.
  - injection E as _ E. now destruct before.
Qed.

Lemma sdk_checks_raised (c : check) (environ : str -> value) (w : world)
    (s0 s1 : state) (b : bool) :
  c = CosmosDB \/ c = StorageAccount ->
  run c environ w s0 = (Return b, s1) ->
  call_raised_between w s0 s1 -> b = false.
Proof.
  intros Hc Hrun Hraised.
  destruct (configured c environ) eqn:Hcfg.
  2:{ rewrite guard_short_circuits in Hrun;
        [| now destruct Hc; subst | exact Hcfg].
      inversion Hrun. reflexivity. }
  destruct b; [exfalso | reflexivity].
  destruct Hraised as (before & k & after & E & Hk).
  destruct Hc; subst c;
    unfold run, test_cosmos_db, test_storage_account, os_getenv in Hrun;
    cbv zeta in Hrun;
    (replace (all _) with true in Hrun by (symmetry; exact Hcfg));
    cbn [negb] in Hrun;
    unfold try_except, bind, sdk_call, print, ret in Hrun; cbn [calls stdout] in Hrun;
    repeat match type of Hrun with
      | context [sdk w ?h ?q] =>
          let Q := fresh "Q" in
          destruct (sdk w h q) as [[]|?e] eqn:Q;
          [| destruct (isinstance_Exception e); discriminate Hrun ]
      end;
    inversion Hrun; subst s1; clear Hrun; cbn [calls] in E;
    rewrite <- !app_assoc in *; simpl in *;
    apply app_inv_head in E;
    repeat (destruct before as [|? before]; simpl in E;
            [ injection E; intros; subst; simpl in Hk; rewrite ?app_nil_r in Hk;
              first [ rewrite Q in Hk | rewrite Q0 in Hk
                    | rewrite Q1 in Hk | rewrite Q2 in Hk ];
              discriminate Hk
            | let Hh := fresh "Hh" in
              injection E as Hh E; rewrite <- Hh in Hk; clear Hh ]);
    destruct before; discriminate E.
Qed.

(** A check that returns after one of its calls raised returns false. *)
Lemma check_raised (c : check) (environ : str -> value) (w : world)
    (s0 s1 : state) (b : bool) :
  run c environ w s0 = (Return b, s1) ->
  call_raised_between w s0 s1 -> b = false.
Proof.
  intros Hrun Hraised.
  destruct c.
  - destruct (configured AzureOpenAI environ) eqn:Hcfg.
    + destruct (@raw_http_probe_configured AzureOpenAI environ eq_refl Hcfg)
        as (url & headers & H).
      rewrite H in Hrun. eapply test_endpoint_raised; eassumption.
    + rewrite guard_short_circuits in Hrun by easy. now inversion Hrun.
  - destruct (configured AISearch environ) eqn:Hcfg.
    + destruct (@raw_http_probe_configured AISearch environ eq_refl Hcfg)
        as (url & headers & H).
      rewrite H in Hrun. eapply test_endpoint_raised; eassumption.
    + rewrite guard_short_circuits in Hrun by easy. now inversion Hrun.
  - apply (@sdk_checks_raised CosmosDB environ w s0 s1 b); auto.
  - apply (@sdk_checks_raised StorageAccount environ w s0 s1 b); auto.
  - exfalso. apply (@no_call_no_raise w s0 s1); [|exact Hraised].
    simpl in Hrun.
    destruct (environ (lit "APPLICATIONINSIGHTS_CONNECTION_STRING")) as [text|] eqn:E.
    + destruct (test_application_insights_run environ s0 E) as [line Hl].
      rewrite Hl in Hrun. now inversion Hrun.
    + change (test_application_insights environ s0)
        with (run ApplicationInsights environ w s0) in Hrun.
      rewrite guard_short_circuits in Hrun; [now inversion Hrun | reflexivity |].
      apply configured_false with (name := "APPLICATIONINSIGHTS_CONNECTION_STRING"%string);
        [now left | now rewrite E].
  - exfalso. apply (@no_call_no_raise w s0 s1); [|exact Hraised].
    simpl in Hrun. destruct (test_agent_ids_run environ s0) as [lines Hl].
    rewrite Hl in Hrun. now inversion Hrun.
Qed.

Lemma run_all_returns (environ : str -> value) (w : world) :
  raises_handled w ->
  forall cs s, exists rs s', run_all cs environ w s = (Return rs, s').
Proof.
  intros Hw cs. induction cs as [|c cs IH]; intros s; simpl.
  - unfold ret. now eauto.
  - unfold bind. destruct (@check_returns c environ w s Hw) as (b & s1 & ->).
    destruct (IH s1) as (rs & s2 & ->). unfold ret. now eauto.
Qed.

(** What the handlers do achieve, with [print] and the imports of lines 58
    and 82 taken not to raise. When the HTTP layer raises nothing but members
    of the [RequestException] family and the SDK nothing but subclasses of
    [Exception], every check returns a boolean, false when one of its calls
    raised, and so all six checks run and [main] reports their six
    results. *)
Theorem handled_exceptions_never_escape :
  forall (environ : str -> value) (w : world) (s : state),
    raises_handled w ->
    (forall (c : check) (s0 : state),
        exists b s1,
          run c environ w s0 = (Return b, s1)
          /\ (call_raised_between w s0 s1 -> b = false))
    /\ exists rs s' code,
         run_all all_checks environ w (after_banner s) = (Return rs, s')
         /\ List.length rs = 6%nat
         /\ main_results environ w (after_banner s)
            = (Return (combine (map service_name all_checks) rs), s')
         /\ fst (main environ w s) = Return code.
Proof.
  intros environ w s Hw. split.
  - intros c s0. destruct (@check_returns c environ w s0 Hw) as (b & s1 & Hrun).
    exists b, s1. split; [exact Hrun|].
    intros Hraised. eapply check_raised; eassumption.
  - destruct (@run_all_returns environ w Hw all_checks (after_banner s))
      as (rs & s' & Hrun).
    destruct (main_run _ _ _ Hrun) as (verdict & Hmain & Hresults).
    exists rs, s', (if all rs then 0 else 1)%Z.
    repeat split.
    + exact Hrun.
    + exact (run_all_length _ _ _ _ Hrun).
    + exact Hresults.
    + now rewrite Hmain.
Qed.

Lemma unreachable_raises_handled : raises_handled ProberExamples.unreachable.
Proof.
  split.
  - intros history url headers timeout e H. simpl in H. injection H as <-. reflexivity.
  - intros history c e H. simpl in H. injection H as <-. reflexivity.
Defined.

Lemma handled_exceptions_never_escape_example :
  exists rs s' code,
    run_all all_checks ProberExamples.full_environ ProberExamples.unreachable
      (after_banner initial)
    = (Return rs, s')
    /\ List.length rs = 6%nat
    /\ main_results ProberExamples.full_environ ProberExamples.unreachable
         (after_banner initial)
       = (Return (combine (map service_name all_checks) rs), s')
    /\ fst (main ProberExamples.full_environ ProberExamples.unreachable initial)
       = Return code.
Proof.
  exact (proj2 (@handled_exceptions_never_escape ProberExamples.full_environ
                  ProberExamples.unreachable initial unreachable_raises_handled)).
Defined.

(** C8. No exception is to escape a check, and the database, blob-storage
    and telemetry checks catch [Exception] for that; but the handler of
    [test_endpoint] (line 23) names [RequestException] only, and the code
    breaks the claim. With an API key outside Latin-1 the HTTP library raises
    [UnicodeEncodeError], which is no [RequestException]: it escapes the
    model-serving check and [main], after the banner and the one GET, so none
    of the five remaining checks runs and nothing is reported. *)
Lemma unhandled_exception_escapes :
  fst (run AzureOpenAI ProberExamples.cyrillic_key_environ
         ProberExamples.encoding_failure (after_banner initial))
    = Raise ProberExamples.unicode_encode_error
  /\ fst (main ProberExamples.cyrillic_key_environ ProberExamples.encoding_failure
            initial)
     = Raise ProberExamples.unicode_encode_error
  /\ stdout (snd (main ProberExamples.cyrillic_key_environ
                    ProberExamples.encoding_failure initial))
     = [rule; lit "Testing Azure Service Endpoints"; rule; []]
  /\ calls (snd (main ProberExamples.cyrillic_key_environ
                   ProberExamples.encoding_failure initial))
     = [ RequestsGet
           (lit "https://aoai.example/openai/deployments?api-version=2024-02-01")
           (Some [(lit "api-key", Some [1082; 1083; 1102; 1095]%N)]) 10 ].
Proof.
  vm_compute. repeat split.
Qed.

End TestEndpointsSpec.

(* ================================================================== *)
(** ** Beyond the claims: the endpoint prober *)
(* ================================================================== *)

Module TestEndpointsMore.
Import Py PyFacts TestEndpoints ProberContract ProberDetails TestEndpointsSpec.

(** *** The request of the raw HTTP probes *)

Lemma rstrip_by_app (drop : char -> bool) (s t : str) :
  forallb drop t = true -> rstrip_by drop (s ++ t) = rstrip_by drop s.
Proof.
  intros Ht. induction s as [|c s IH]; simpl.
  - now apply rstrip_by_nil.
  - now rewrite IH.
Qed.

Lemma rstrip_slashes (base : str) (n : nat) :
  rstrip (lit "/") (base ++ repeat slash n) = rstrip (lit "/") base.
Proof.
  unfold rstrip. apply rstrip_by_app.
  apply forallb_forall. intros c Hc. apply repeat_spec in Hc. now subst.
Qed.

Lemma raw_http_probe_run (c : check) (environ : str -> value) (w : world) (s : state) :
  raw_http_probe c = true -> configured c environ = true ->
  run c environ w s
  = test_endpoint w (service_name c) (probe_url c environ)
      (Some [(lit "api-key", environ (lit (key_variable c)))]) s.
Proof.
  intros Hp Hc. destruct c; try discriminate Hp;
    unfold run, test_azure_openai, test_ai_search, os_getenv; cbv zeta;
    (replace (all _) with true by (symmetry; exact Hc));
    unfold configured in Hc; simpl in Hc;
    apply andb_true_iff in Hc; destruct Hc as [He _];
    apply truthy_Some in He; destruct He as [base He];
    unfold probe_url; rewrite He; reflexivity.
Qed.

(** X2. A configured raw HTTP probe makes exactly one call, whatever comes
    back: a GET of the endpoint without its trailing slashes followed by the
    fixed path and query, with the API key as the only header and a timeout
    of 10 seconds. *)
Theorem raw_http_probe_request :
  forall (c : check) (environ : str -> value) (w : world) (s : state),
    raw_http_probe c = true -> configured c environ = true ->
    calls (snd (run c environ w s)) = calls s ++ [probe_call c environ].
Proof.
  intros c environ w s Hp Hc.
  rewrite raw_http_probe_run by assumption. apply test_endpoint_calls.
Qed.

Lemma raw_http_probe_request_example :
  calls (snd (run AISearch ProberExamples.full_environ ProberExamples.unreachable
                initial))
  = [ RequestsGet (lit "https://search.example/indexes/products?api-version=2023-11-01")
        (Some [(lit "api-key", Some (lit "key-2"))]) 10 ].
Proof.
  exact (@raw_http_probe_request AISearch ProberExamples.full_environ
           ProberExamples.unreachable initial eq_refl eq_refl).
Defined.

(** Comparisons of variable names are decided by evaluation. *)
Ltac decide_names :=
  repeat match goal with
    | |- context [str_eqb (lit ?a) (lit ?b)] =>
        let v := eval vm_compute in (str_eqb (lit a) (lit b)) in
        change (str_eqb (lit a) (lit b)) with v
    end;
  cbv iota.

(** X3. Trailing slashes of the configured endpoint do not matter: a raw
    HTTP probe runs the same, request and all, whether the endpoint ends in
    no slash, one or several. *)
Theorem trailing_slashes_irrelevant :
  forall (c : check) (environ : str -> value) (w : world) (s : state)
         (base : str) (n m : nat),
    raw_http_probe c = true ->
    configured c (setenv environ (endpoint_variable c) (base ++ repeat slash n)) = true ->
    configured c (setenv environ (endpoint_variable c) (base ++ repeat slash m)) = true ->
    run c (setenv environ (endpoint_variable c) (base ++ repeat slash n)) w s
    = run c (setenv environ (endpoint_variable c) (base ++ repeat slash m)) w s.
Proof.
  intros c environ w s base n m Hp Hn Hm.
  rewrite !raw_http_probe_run by assumption.
  destruct c; try discriminate Hp;
    unfold probe_url, key_variable, endpoint_variable, setenv; decide_names;
    cbn [format]; now rewrite !rstrip_slashes.
Qed.

Lemma trailing_slashes_irrelevant_example :
  run AzureOpenAI
    (setenv ProberExamples.full_environ "AZURE_OPENAI_ENDPOINT"
       (lit "https://aoai.example" ++ repeat slash 0))
    (ProberExamples.answering 200) initial
  = run AzureOpenAI
      (setenv ProberExamples.full_environ "AZURE_OPENAI_ENDPOINT"
         (lit "https://aoai.example" ++ repeat slash 3))
      (ProberExamples.answering 200) initial.
Proof.
  exact (@trailing_slashes_irrelevant AzureOpenAI ProberExamples.full_environ
           (ProberExamples.answering 200) initial (lit "https://aoai.example") 0 3
           eq_refl eq_refl eq_refl).
Defined.

(** *** The SDK checks, call by call *)

Lemma sdk_run_prefix (w : world) (sequence : list call) :
  forall history, exists n,
    snd (sdk_run w history sequence) = history ++ firstn n sequence
    /\ (n <= List.length sequence)%nat
    /\ (sequence <> [] -> (1 <= n)%nat)
    /\ (fst (sdk_run w history sequence) = Return tt -> n = List.length sequence).
Proof.
  induction sequence as [|k rest IH]; intros history; simpl.
  - exists 0%nat. rewrite app_nil_r. repeat split; auto. congruence.
  - destruct (sdk w history k) as [[]|e].
    + destruct (IH (history ++ [k])) as (n & Hs & Hle & _ & Hall).
      exists (S n). simpl. rewrite Hs, <- app_assoc. repeat split; auto; lia.
    + exists 1%nat. simpl. repeat split; auto; try lia. discriminate.
Qed.

(** The run of a configured SDK check, by the outcome of its calls. *)
Lemma sdk_check_run (c : check) (environ : str -> value) (w : world) (s : state) :
  c = CosmosDB \/ c = StorageAccount -> configured c environ = true ->
  exists line,
    run c environ w s
    = match sdk_run w (calls s) (sdk_sequence c environ) with
      | (Return _, made) =>
          (Return true, {| stdout := stdout s ++ [line]; calls := made |})
      | (Raise e, made) =>
          if isinstance_Exception e then
            (Return false,
             {| stdout := stdout s
                            ++ [cross_mark ++ lit " " ++ service_name c ++ lit ": Failed - "
                                  ++ slice_to 100 (exc_str e)];
                calls := made |})
          else (Raise e, {| stdout := stdout s; calls := made |})
      end.
Proof.
  intros Hc Hcfg.
  destruct Hc; subst c; eexists;
    unfold run, test_cosmos_db, test_storage_account, os_getenv; cbv zeta;
    (replace (all _) with true by (symmetry; exact Hcfg));
    cbn [negb]; unfold try_except, bind, sdk_call, print, ret; cbn [calls stdout];
    unfold sdk_sequence, sdk_run;
    repeat match goal with
      | |- context [sdk w ?h ?k] =>
          destruct (sdk w h k) as [[]|?e];
          [| destruct (isinstance_Exception e);
             rewrite <- ?app_assoc; reflexivity ]
      end;
    rewrite <- ?app_assoc; reflexivity.
Qed.

Lemma sdk_check_calls (c : check) (environ : str -> value) (w : world) (s : state) :
  c = CosmosDB \/ c = StorageAccount -> configured c environ = true ->
  calls (snd (run c environ w s)) = snd (sdk_run w (calls s) (sdk_sequence c environ)).
Proof.
  intros Hc Hcfg. destruct (sdk_check_run environ w s Hc Hcfg) as [line ->].
  destruct (sdk_run w (calls s) (sdk_sequence c environ)) as [[[]|e] made];
    [reflexivity|].
  destruct (isinstance_Exception e); reflexivity.
Qed.

Lemma sdk_check_calls_grow (c : check) (environ : str -> value) (w : world) (s : state) :
  c = CosmosDB \/ c = StorageAccount -> configured c environ = true ->
  (List.length (calls s) < List.length (calls (snd (run c environ w s))))%nat.
Proof.
  intros Hc Hcfg. rewrite sdk_check_calls by assumption.
  destruct (sdk_run_prefix w (sdk_sequence c environ) (calls s))
    as (n & -> & Hle & Hpos & _).
  assert (Hlen : List.length (sdk_sequence c environ) = 4%nat)
    by (destruct Hc; subst c; reflexivity).
  assert (Hne : sdk_sequence c environ <> [])
    by (destruct Hc; subst c; discriminate).
  specialize (Hpos Hne). rewrite length_app, length_firstn. lia.
Qed.

Lemma sdk_run_trace (w : world) (sequence : list call) :
  forall history,
    match sdk_run w history sequence with
    | (Return _, made) =>
        made = history ++ sequence /\ returned_all w history sequence
    | (Raise e, made) =>
        exists before k after,
          sequence = before ++ k :: after
          /\ returned_all w history before
          /\ sdk w (history ++ before) k = Raise e
          /\ made = history ++ before ++ [k]
    end.
Proof.
  induction sequence as [|k rest IH]; intros history; simpl.
  - split; [now rewrite app_nil_r|].
    intros before k after H. now destruct before.
  - destruct (sdk w history k) as [[]|e] eqn:E.
    + specialize (IH (history ++ [k])).
      destruct (sdk_run w (history ++ [k]) rest) as [[[]|e] made].
      * destruct IH as [-> Hall]. split; [now rewrite <- app_assoc|].
        intros before k' after H. destruct before as [|b before]; simpl in H.
        -- injection H as <- _. now rewrite app_nil_r.
        -- injection H as <- H. specialize (Hall before k' after H).
           now rewrite <- app_assoc in Hall.
      * destruct IH as (before & k' & after & -> & Hall & Hk & ->).
        exists (k :: before), k', after. rewrite <- app_assoc in Hk.
        repeat split; [|exact Hk|now rewrite <- app_assoc].
        intros pre q post H. destruct pre as [|b pre]; simpl in H.
        -- injection H as <- _. now rewrite app_nil_r.
        -- injection H as <- H. specialize (Hall pre q post H).
           now rewrite <- app_assoc in Hall.
    + exists [], k, rest. rewrite app_nil_r. repeat split; [|exact E].
      intros before k' after H. now destruct before.
Qed.

(** X4. A configured database or blob-storage check makes its four SDK
    calls in order and stops at the first one that raises. Either all four
    calls return: then exactly these four have been made and the result is
    true. Or there is a first call that raises, all calls before it having
    returned: then the calls made are those up to and including that one and
    none after it, and the result is false, or the exception itself when it
    is no [Exception]. So the result is true exactly when all four calls
    return. *)
Theorem sdk_checks_stop_at_first_failure :
  forall (c : check) (environ : str -> value) (w : world) (s : state),
    c = CosmosDB \/ c = StorageAccount ->
    configured c environ = true ->
    (fst (run c environ w s) = Return true
     /\ calls (snd (run c environ w s)) = calls s ++ sdk_sequence c environ
     /\ returned_all w (calls s) (sdk_sequence c environ)
     \/ exists before k after e,
          sdk_sequence c environ = before ++ k :: after
          /\ returned_all w (calls s) before
          /\ sdk w (calls s ++ before) k = Raise e
          /\ calls (snd (run c environ w s)) = calls s ++ before ++ [k]
          /\ fst (run c environ w s)
             = if isinstance_Exception e then Return false else Raise e)
    /\ (fst (run c environ w s) = Return true
        <-> returned_all w (calls s) (sdk_sequence c environ)).
Proof.
  intros c environ w s Hc Hcfg.
  destruct (sdk_check_run environ w s Hc Hcfg) as [line Hrun].
  pose proof (sdk_run_trace w (sdk_sequence c environ) (calls s)) as Htrace.
  rewrite Hrun.
  destruct (sdk_run w (calls s) (sdk_sequence c environ)) as [[[]|e] made].
  - destruct Htrace as [-> Hall]. split; [left; now repeat split|]. tauto.
  - destruct Htrace as (before & k & after & Hseq & Hall & Hk & ->).
    assert (Hnot : ~ returned_all w (calls s) (sdk_sequence c environ)).
    { intros H. specialize (H before k after Hseq). rewrite Hk in H. discriminate. }
    split.
    + right. exists before, k, after, e.
      destruct (isinstance_Exception e); now repeat split.
    + destruct (isinstance_Exception e); split; intros H;
        try discriminate H; contradiction.
Qed.

Lemma sdk_checks_stop_at_first_failure_example :
  (fst (run CosmosDB ProberExamples.full_environ
          (ProberExamples.world_for true true false true) initial)
   = Return true
   /\ calls (snd (run CosmosDB ProberExamples.full_environ
                    (ProberExamples.world_for true true false true) initial))
      = calls initial ++ sdk_sequence CosmosDB ProberExamples.full_environ
   /\ returned_all (ProberExamples.world_for true true false true) (calls initial)
        (sdk_sequence CosmosDB ProberExamples.full_environ)
   \/ exists before k after e,
        sdk_sequence CosmosDB ProberExamples.full_environ = before ++ k :: after
        /\ returned_all (ProberExamples.world_for true true false true) (calls initial)
             before
        /\ sdk (ProberExamples.world_for true true false true) (calls initial ++ before) k
           = Raise e
        /\ calls (snd (run CosmosDB ProberExamples.full_environ
                         (ProberExamples.world_for true true false true) initial))
           = calls initial ++ before ++ [k]
        /\ fst (run CosmosDB ProberExamples.full_environ
                  (ProberExamples.world_for true true false true) initial)
           = if isinstance_Exception e then Return false else Raise e)
  /\ (fst (run CosmosDB ProberExamples.full_environ
             (ProberExamples.world_for true true false true) initial)
      = Return true
      <-> returned_all (ProberExamples.world_for true true false true) (calls initial)
            (sdk_sequence CosmosDB ProberExamples.full_environ)).
Proof.
  exact (@sdk_checks_stop_at_first_failure CosmosDB ProberExamples.full_environ
           (ProberExamples.world_for true true false true) initial
           (or_introl eq_refl) eq_refl).
Defined.

(** X5. The configuration guard is exact for the four checks that call a
    service: such a check leaves the record of calls untouched if and only if
    one of its required variables is absent or empty. A value of blanks only
    counts as set here. *)
Theorem network_check_calls_iff_configured :
  forall (c : check) (environ : str -> value) (w : world) (s : state),
    network_check c = true ->
    (calls (snd (run c environ w s)) = calls s <-> configured c environ = false).
Proof.
  intros c environ w s Hn. split.
  - intros Hcalls. destruct (configured c environ) eqn:Hcfg; [exfalso|reflexivity].
    assert (Hlen : (List.length (calls s) < List.length (calls (snd (run c environ w s))))%nat).
    { destruct c; try discriminate Hn.
      - rewrite raw_http_probe_run, test_endpoint_calls by easy.
        rewrite length_app. simpl. lia.
      - rewrite raw_http_probe_run, test_endpoint_calls by easy.
        rewrite length_app. simpl. lia.
      - apply (@sdk_check_calls_grow CosmosDB); auto.
      - apply (@sdk_check_calls_grow StorageAccount); auto. }
    rewrite Hcalls in Hlen. lia.
  - intros Hcfg. rewrite guard_short_circuits; [reflexivity| |exact Hcfg].
    now destruct c.
Qed.

Lemma network_check_calls_iff_configured_example :
  calls (snd (run CosmosDB
                (setenv (setenv ProberExamples.empty_environ "COSMOS_ENDPOINT" (lit " "))
                   "DATABASE_NAME" (lit " "))
                ProberExamples.unreachable initial))
  = calls initial
  <-> configured CosmosDB
        (setenv (setenv ProberExamples.empty_environ "COSMOS_ENDPOINT" (lit " "))
           "DATABASE_NAME" (lit " "))
      = false.
Proof.
  exact (@network_check_calls_iff_configured CosmosDB
           (setenv (setenv ProberExamples.empty_environ "COSMOS_ENDPOINT" (lit " "))
              "DATABASE_NAME" (lit " "))
           ProberExamples.unreachable initial eq_refl).
Defined.

(** *** The telemetry check, line by line *)

(** X7. The telemetry check always returns, calls nothing and prints exactly
    one line, one of three: [Missing configuration] when the connection
    string is absent or empty, [Configuration valid] together with the result
    true, or [Invalid connection string format]. Its parse cannot fail: the
    [Failed to parse] line of the handler is never printed. *)
Theorem application_insights_three_lines :
  forall (environ : str -> value) (s : state),
    exists (b : bool) (line : str),
      test_application_insights environ s
      = (Return b, {| stdout := stdout s ++ [line]; calls := calls s |})
      /\ (line = telemetry_missing /\ b = false
          /\ truthy (environ (lit "APPLICATIONINSIGHTS_CONNECTION_STRING")) = false
          \/ line = telemetry_valid /\ b = true
             /\ truthy (environ (lit "APPLICATIONINSIGHTS_CONNECTION_STRING")) = true
          \/ line = telemetry_invalid /\ b = false
             /\ truthy (environ (lit "APPLICATIONINSIGHTS_CONNECTION_STRING")) = true).
Proof.
  intros environ s. unfold test_application_insights, os_getenv. cbv zeta.
  destruct (environ (lit "APPLICATIONINSIGHTS_CONNECTION_STRING")) as [[|c text]|].
  - exists false, telemetry_missing. split; [reflexivity | left; now repeat split].
  - cbn [truthy negb]. unfold try_except, bind, receiver, ret, lift, dict_of_pairs.
    destruct (@dict_update_seq_pairs _ (connection_string_pairs (c :: text)) [])
      as (parts & -> & _).
    destruct (dict_contains parts (lit "InstrumentationKey")
              && dict_contains parts (lit "IngestionEndpoint")).
    + exists true, telemetry_valid. split; [reflexivity | right; left; now repeat split].
    + exists false, telemetry_invalid.
      split; [reflexivity | right; right; now repeat split].
  - exists false, telemetry_missing. split; [reflexivity | left; now repeat split].
Qed.

(** X8. The telemetry check looks at the keys only: any two values, empty
    ones included, pass, in either order of the two items. *)
Theorem application_insights_ignores_values :
  forall (environ : str -> value) (s : state) (v1 v2 : str),
    environ (lit "APPLICATIONINSIGHTS_CONNECTION_STRING")
      = Some (lit "InstrumentationKey=" ++ v1 ++ lit ";IngestionEndpoint=" ++ v2)
    \/ environ (lit "APPLICATIONINSIGHTS_CONNECTION_STRING")
       = Some (lit "IngestionEndpoint=" ++ v1 ++ lit ";InstrumentationKey=" ++ v2) ->
    fst (test_application_insights environ s) = Return true.
Proof.
  intros environ s v1 v2 Henv.
  assert (Hkeys : exists text,
             environ (lit "APPLICATIONINSIGHTS_CONNECTION_STRING") = Some text
             /\ has_key (lit "InstrumentationKey") text = true
             /\ has_key (lit "IngestionEndpoint") text = true).
  { destruct Henv as [H | H]; eexists; (split; [exact H|]); split;
      apply has_key_iff; try reflexivity.
    - exists [], (v1 ++ lit ";IngestionEndpoint=" ++ v2). split; [reflexivity | now left].
    - exists (lit "InstrumentationKey=" ++ v1 ++ [semicolon]), v2. split.
      + rewrite <- !app_assoc. reflexivity.
      + right. exists (lit "InstrumentationKey=" ++ v1). now rewrite <- app_assoc.
    - exists (lit "IngestionEndpoint=" ++ v1 ++ [semicolon]), v2. split.
      + rewrite <- !app_assoc. reflexivity.
      + right. exists (lit "IngestionEndpoint=" ++ v1). now rewrite <- app_assoc.
    - exists [], (v1 ++ lit ";InstrumentationKey=" ++ v2). split; [reflexivity | now left]. }
  destruct Hkeys as (text & Htext & Hk1 & Hk2).
  destruct (test_application_insights_run environ s Htext) as [line ->].
  cbn [fst]. now rewrite Hk1, Hk2.
Qed.

Lemma application_insights_ignores_values_example :
  fst (test_application_insights
         (setenv ProberExamples.empty_environ "APPLICATIONINSIGHTS_CONNECTION_STRING"
            (lit "InstrumentationKey=" ++ [] ++ lit ";IngestionEndpoint=" ++ []))
         initial)
    = Return true.
Proof.
  apply (@application_insights_ignores_values
           (setenv ProberExamples.empty_environ "APPLICATIONINSIGHTS_CONNECTION_STRING"
              (lit "InstrumentationKey=" ++ [] ++ lit ";IngestionEndpoint=" ++ []))
           initial [] []).
  left. reflexivity.
Defined.

(** *** The identifier check, line by line *)

Lemma agent_round_line (name : str) (agent_id : value) (flag : bool) (s : state) :
  (if truthy agent_id && truthy (option_map strip agent_id) then
     bind (getslice_to 20 agent_id)
       (fun shown =>
          bind (print (check_mark ++ lit " Agent ID - " ++ name ++ lit ": Configured ("
                         ++ shown ++ lit "...)"))
            (fun _ => ret flag))
   else
     bind (print (warning_sign ++ lit "  Agent ID - " ++ name ++ lit ": Not configured"))
       (fun _ => if str_eqb name (lit "Customer Loyalty") then ret false else ret flag)) s
  = (Return (if is_blank agent_id
             then (if str_eqb name (lit "Customer Loyalty") then false else flag)
             else flag),
     {| stdout := stdout s ++ [agent_line name agent_id]; calls := calls s |}).
Proof.
  rewrite and_strip_truthy. unfold agent_line.
  destruct (is_blank agent_id) eqn:B; cbn [negb].
  - unfold bind, print, ret.
    destruct (str_eqb name (lit "Customer Loyalty")); reflexivity.
  - destruct agent_id as [a|]; [reflexivity | discriminate].
Qed.

Lemma for_each_lines {A X} (body : A -> X -> M state A) (step : A -> X -> A)
    (line : X -> str) :
  (forall acc x s,
      body acc x s
      = (Return (step acc x), {| stdout := stdout s ++ [line x]; calls := calls s |})) ->
  forall xs acc s,
    for_each xs acc body s
    = (Return (fold_left step xs acc),
       {| stdout := stdout s ++ map line xs; calls := calls s |}).
Proof.
  intros Hbody xs. induction xs as [|x xs IH]; intros acc s; simpl.
  - unfold ret. rewrite app_nil_r. now destruct s.
  - unfold bind. rewrite Hbody, IH. cbn [stdout calls].
    now rewrite <- app_assoc.
Qed.


(** *** The number of [print] calls *)

Lemma test_agent_ids_run_lines (environ : str -> value) (s : state) :
  exists lines,
    test_agent_ids environ s
    = (Return (negb (is_blank (environ (lit "customer_loyalty")))),
       {| stdout := stdout s ++ lines; calls := calls s |})
    /\ List.length lines = 5%nat.
Proof.
  unfold test_agent_ids.
  change (dict_display _) with
    [ (lit "Customer Loyalty", os_getenv environ "customer_loyalty");
      (lit "Inventory Agent", os_getenv environ "inventory_agent");
      (lit "Interior Designer", os_getenv environ "interior_designer");
      (lit "Cora (Shopper)", os_getenv environ "cora");
      (lit "Cart Manager", os_getenv environ "cart_manager") ].
  unfold os_getenv. cbv zeta. unfold bind at 1.
  rewrite (@for_each_lines bool (str * value) _
             (fun flag item =>
                if is_blank (snd item)
                then (if str_eqb (fst item) (lit "Customer Loyalty") then false else flag)
                else flag)
             (fun item => agent_line (fst item) (snd item))).
  - eexists. split.
    + unfold ret. f_equal. f_equal. cbn [fold_left fst snd].
      destruct (is_blank (environ (lit "customer_loyalty")));
        destruct (is_blank (environ (lit "inventory_agent")));
        destruct (is_blank (environ (lit "interior_designer")));
        destruct (is_blank (environ (lit "cora")));
        destruct (is_blank (environ (lit "cart_manager"))); reflexivity.
    + reflexivity.
  - intros flag [name agent_id] s0. apply agent_round_line.
Qed.

Lemma service_check_one_line (c : check) (environ : str -> value) (w : world)
    (s s' : state) (b : bool) :
  guarded c = true ->
  run c environ w s = (Return b, s') ->
  exists line, stdout s' = stdout s ++ [line].
Proof.
  intros Hg Hrun.
  destruct (configured c environ) eqn:Hcfg.
  2:{ rewrite guard_short_circuits in Hrun by assumption.
      injection Hrun as _ <-. now eexists. }
  destruct c; try discriminate Hg.
  - rewrite raw_http_probe_run in Hrun by easy.
    unfold test_endpoint, try_except, bind, requests_get, print, ret in Hrun.
    cbn [calls stdout] in Hrun.
    destruct (http_get w (calls s) _ _ 10) as [code|e'].
    + destruct (code <? 500)%Z; injection Hrun as _ <-; now eexists.
    + destruct (isinstance_RequestException e'); [|discriminate].
      injection Hrun as _ <-. now eexists.
  - rewrite raw_http_probe_run in Hrun by easy.
    unfold test_endpoint, try_except, bind, requests_get, print, ret in Hrun.
    cbn [calls stdout] in Hrun.
    destruct (http_get w (calls s) _ _ 10) as [code|e'].
    + destruct (code <? 500)%Z; injection Hrun as _ <-; now eexists.
    + destruct (isinstance_RequestException e'); [|discriminate].
      injection Hrun as _ <-. now eexists.
  - destruct (@sdk_check_run CosmosDB environ w s (or_introl eq_refl) Hcfg)
      as [line Hl]. rewrite Hl in Hrun.
    destruct (sdk_run w (calls s) (sdk_sequence CosmosDB environ)) as [[[]|e'] made].
    + injection Hrun as _ <-. now eexists.
    + destruct (isinstance_Exception e'); [|discriminate].
      injection Hrun as _ <-. now eexists.
  - destruct (@sdk_check_run StorageAccount environ w s (or_intror eq_refl) Hcfg)
      as [line Hl]. rewrite Hl in Hrun.
    destruct (sdk_run w (calls s) (sdk_sequence StorageAccount environ))
      as [[[]|e'] made].
    + injection Hrun as _ <-. now eexists.
    + destruct (isinstance_Exception e'); [|discriminate].
      injection Hrun as _ <-. now eexists.
  - simpl in Hrun.
    destruct (environ (lit "APPLICATIONINSIGHTS_CONNECTION_STRING")) as [text|] eqn:E.
    + destruct (test_application_insights_run environ s E) as [line Hl].
      rewrite Hl in Hrun. injection Hrun as _ <-. now eexists.
    + unfold configured in Hcfg. simpl in Hcfg. rewrite E in Hcfg. discriminate.
Qed.

Lemma run_all_lines (environ : str -> value) (w : world) (s s' : state)
    (rs : list bool) :
  run_all all_checks environ w s = (Return rs, s') ->
  exists lines, stdout s' = stdout s ++ lines /\ List.length lines = 10%nat.
Proof.
  unfold all_checks, run_all, bind, ret.
  destruct (run AzureOpenAI environ w s) as [[r1|e] s1] eqn:E1; [|discriminate].
  destruct (run AISearch environ w s1) as [[r2|e] s2] eqn:E2; [|discriminate].
  destruct (run CosmosDB environ w s2) as [[r3|e] s3] eqn:E3; [|discriminate].
  destruct (run StorageAccount environ w s3) as [[r4|e] s4] eqn:E4; [|discriminate].
  destruct (run ApplicationInsights environ w s4) as [[r5|e] s5] eqn:E5; [|discriminate].
  destruct (run AgentIDs environ w s5) as [[r6|e] s6] eqn:E6; [|discriminate].
  intros H. injection H as _ <-.
  destruct (@service_check_one_line AzureOpenAI _ _ _ _ _ eq_refl E1) as [l1 H1].
  destruct (@service_check_one_line AISearch _ _ _ _ _ eq_refl E2) as [l2 H2].
  destruct (@service_check_one_line CosmosDB _ _ _ _ _ eq_refl E3) as [l3 H3].
  destruct (@service_check_one_line StorageAccount _ _ _ _ _ eq_refl E4) as [l4 H4].
  destruct (@service_check_one_line ApplicationInsights _ _ _ _ _ eq_refl E5) as [l5 H5].
  simpl in E6. destruct (test_agent_ids_run_lines environ s5) as (ls & Hl & Hn).
  rewrite Hl in E6. injection E6 as _ <-. cbn [stdout].
  exists ([l1; l2; l3; l4; l5] ++ ls). split.
  - rewrite H5, H4, H3, H2, H1, <- !app_assoc. reflexivity.
  - rewrite length_app, Hn. reflexivity.
Qed.

(** X10. Whenever [main] returns it has called [print] exactly 21 times,
    whatever the services answered: four times for the banner, once in each of
    the five service checks, five times in the identifier check and seven
    times for the summary. (This counts calls, not lines of text: the text of
    the last call begins with a newline.) *)
Theorem main_calls_print_21_times :
  forall (environ : str -> value) (w : world) (s : state) (code : Z),
    fst (main environ w s) = Return code ->
    List.length (stdout (snd (main environ w s))) = (List.length (stdout s) + 21)%nat.
Proof.
  intros environ w s code Hmain.
  destruct (run_all all_checks environ w (after_banner s)) as [[rs|e] s'] eqn:Hrun.
  - destruct (main_run _ _ _ Hrun) as (verdict & Hm & _).
    destruct (run_all_lines _ _ _ Hrun) as (lines & Hlines & Hlen).
    rewrite Hm. cbn [snd stdout]. rewrite Hlines.
    unfold after_banner. cbn [stdout]. rewrite !length_app, Hlen. simpl. lia.
  - rewrite main_unfold in Hmain. unfold bind at 1 in Hmain.
    rewrite main_results_run_all in Hmain. unfold bind at 1 in Hmain.
    rewrite Hrun in Hmain. discriminate.
Qed.

Lemma main_calls_print_21_times_example :
  List.length (stdout (snd (main ProberExamples.full_environ ProberExamples.unreachable
                              initial)))
  = (List.length (stdout initial) + 21)%nat.
Proof.
  apply (@main_calls_print_21_times ProberExamples.full_environ
           ProberExamples.unreachable initial 1%Z).
  vm_compute. reflexivity.
Defined.

(** *** An exception stops the run *)

Lemma run_all_raise (environ : str -> value) (w : world) (e : exception) :
  forall cs s s',
    run_all cs environ w s = (Raise e, s') ->
    exists before c after rs s0,
      cs = before ++ c :: after
      /\ run_all before environ w s = (Return rs, s0)
      /\ run c environ w s0 = (Raise e, s').
Proof.
  induction cs as [|c cs IH]; intros s s'; simpl.
  - unfold ret. discriminate.
  - unfold bind. destruct (run c environ w s) as [[r|e0] s1] eqn:E.
    + destruct (run_all cs environ w s1) as [[rs|e1] s2] eqn:E'.
      * unfold ret. discriminate.
      * intros H. injection H as -> <-.
        destruct (IH s1 s2 E') as (before & c' & after & rs & s0 & -> & Hb & Hrun).
        exists (c :: before), c', after, (r :: rs), s0.
        repeat split; [|exact Hrun].
        simpl. unfold bind. rewrite E, Hb. reflexivity.
    + intros H. injection H as -> <-.
      exists [], c, cs, [], s. repeat split. exact E.
Qed.

(** X14. [main] has no handler of its own. When it raises, the six checks
    split into those that ran and returned, in order from the state after the
    banner, the one check that then raised this exception, and the rest; and
    the state [main] ends in is the state that check left. So none of the
    remaining checks has run and nothing, no summary either, has been printed
    after the exception. *)
Theorem main_stops_where_a_check_raises :
  forall (environ : str -> value) (w : world) (s : state) (e : exception),
    fst (main environ w s) = Raise e ->
    exists before c after rs s0,
      all_checks = before ++ c :: after
      /\ run_all before environ w (after_banner s) = (Return rs, s0)
      /\ run c environ w s0 = (Raise e, snd (main environ w s)).
Proof.
  intros environ w s e Hmain.
  rewrite main_unfold in *. unfold bind at 1 in Hmain. unfold bind at 1.
  rewrite main_results_run_all in *. unfold bind at 1 in Hmain. unfold bind at 1.
  destruct (run_all all_checks environ w (after_banner s)) as [[rs|e0] s'] eqn:Hrun.
  - unfold ret in Hmain.
    destruct (main_summary_run (combine (map service_name all_checks) rs) s')
      as [verdict Hs].
    rewrite Hs in Hmain. discriminate.
  - cbn [fst snd] in *. injection Hmain as ->.
    eapply run_all_raise. exact Hrun.
Qed.

Lemma main_stops_where_a_check_raises_example :
  exists before c after rs s0,
    all_checks = before ++ c :: after
    /\ run_all before ProberExamples.cyrillic_key_environ ProberExamples.encoding_failure
         (after_banner initial)
       = (Return rs, s0)
    /\ run c ProberExamples.cyrillic_key_environ ProberExamples.encoding_failure s0
       = (Raise ProberExamples.unicode_encode_error,
          snd (main ProberExamples.cyrillic_key_environ ProberExamples.encoding_failure
                 initial)).
Proof.
  apply (@main_stops_where_a_check_raises ProberExamples.cyrillic_key_environ
           ProberExamples.encoding_failure initial ProberExamples.unicode_encode_error).
  vm_compute. reflexivity.
Defined.

End TestEndpointsMore.

(* ================================================================== *)
(** ** Beyond the claims: the fallback callers *)
(* ================================================================== *)

Module FallbackServiceMore.
Import Py FallbackService FallbackContract FallbackDetails FallbackServiceSpec.

(** X11. When the endpoint answers with a first choice, [call_fallback] adds
    exactly one entry to the log, the timing entry of the operation
    [Fallback Call] with the deployment as detail and the time between its
    two clock readings; when the call raises or the answer has no choice, it
    logs nothing. *)
Theorem call_fallback_logs_one_timing :
  forall (clock : nat -> float) (llm_client : client)
         (fallback_prompt gpt_deployment : str) (s : state),
    (forall text,
        fst (call_fallback clock llm_client fallback_prompt gpt_deployment s)
          = Return text ->
        log (snd (call_fallback clock llm_client fallback_prompt gpt_deployment s))
        = log s
            ++ [ Timing (lit "Fallback Call")
                   (PrimFloat.sub (clock (S (clock_reads s))) (clock (clock_reads s)))
                   (lit "Model: " ++ gpt_deployment) ])
    /\ (forall e,
           fst (call_fallback clock llm_client fallback_prompt gpt_deployment s)
             = Raise e ->
           log (snd (call_fallback clock llm_client fallback_prompt gpt_deployment s))
           = log s).
Proof.
  intros clock llm_client fallback_prompt gpt_deployment s.
  unfold call_fallback, log_timing, bind, time_time, chat_completions_create, emit,
    getitem0, ret, raise.
  cbn [sent log clock_reads].
  destruct (create llm_client (sent s) _) as [completion|e0]; cbn [fst snd log].
  - destruct (Response.choices completion) as [|first rest]; cbn [fst snd log];
      split; intros ? H; try discriminate H; reflexivity.
  - split; intros ? H; try discriminate H; reflexivity.
Qed.

Lemma call_fallback_logs_one_timing_example :
  log (snd (call_fallback FallbackExamples.frozen_clock FallbackExamples.answering_client
              (lit "ping") call_fallback_default initial))
  = log initial
      ++ [ Timing (lit "Fallback Call")
             (PrimFloat.sub
                (FallbackExamples.frozen_clock (S (clock_reads initial)))
                (FallbackExamples.frozen_clock (clock_reads initial)))
             (lit "Model: " ++ call_fallback_default) ].
Proof.
  apply (proj1 (@call_fallback_logs_one_timing FallbackExamples.frozen_clock
                  FallbackExamples.answering_client (lit "ping") call_fallback_default
                  initial) (Some (lit "pong"))).
  reflexivity.
Defined.



(** X13. An answer without choices is an error of its own: [call_fallback],
    and likewise the function of lines 40-85 as written, raises [IndexError]
    (for [choices[0]]) after its one request has been sent, and returns
    nothing. *)
Theorem no_choice_raises_index_error :
  forall (clock : nat -> float) (llm_client : client)
         (fallback_prompt gpt_deployment : str) (s : state)
         (completion : Response.completion),
    Response.choices completion = [] ->
    (create llm_client (sent s) (plain_request fallback_prompt gpt_deployment)
       = Return completion ->
     fst (call_fallback clock llm_client fallback_prompt gpt_deployment s)
       = Raise (IndexError (lit "list index out of range"))
     /\ sent (snd (call_fallback clock llm_client fallback_prompt gpt_deployment s))
        = sent s ++ [plain_request fallback_prompt gpt_deployment])
    /\ (create llm_client (sent s) (cora_request fallback_prompt gpt_deployment)
          = Return completion ->
        fst (cora_fallback_undecorated clock llm_client fallback_prompt
               gpt_deployment s)
          = Raise (IndexError (lit "list index out of range"))
        /\ sent (snd (cora_fallback_undecorated clock llm_client fallback_prompt
                        gpt_deployment s))
           = sent s ++ [cora_request fallback_prompt gpt_deployment]).
Proof.
  intros clock llm_client fallback_prompt gpt_deployment s completion Hempty.
  split; intros Hc; split.
  - rewrite call_fallback_outcome, Hc. unfold handed_back, first_choice_text.
    now rewrite Hempty.
  - apply call_fallback_sent.
  - rewrite cora_fallback_undecorated_outcome, Hc.
    unfold handed_back, first_choice_text. now rewrite Hempty.
  - apply cora_fallback_undecorated_sent.
Qed.

Lemma no_choice_raises_index_error_example :
  (fst (call_fallback FallbackExamples.frozen_clock FallbackExamples.mute_client
          (lit "ping") call_fallback_default initial)
   = Raise (IndexError (lit "list index out of range"))
   /\ sent (snd (call_fallback FallbackExamples.frozen_clock FallbackExamples.mute_client
                   (lit "ping") call_fallback_default initial))
      = sent initial ++ [plain_request (lit "ping") call_fallback_default])
  /\ (fst (cora_fallback_undecorated FallbackExamples.frozen_clock
             FallbackExamples.mute_client (lit "ping") cora_fallback_default initial)
      = Raise (IndexError (lit "list index out of range"))
      /\ sent (snd (cora_fallback_undecorated FallbackExamples.frozen_clock
                      FallbackExamples.mute_client (lit "ping") cora_fallback_default
                      initial))
         = sent initial ++ [cora_request (lit "ping") cora_fallback_default]).
Proof.
  split.
  - apply (proj1 (@no_choice_raises_index_error FallbackExamples.frozen_clock
                    FallbackExamples.mute_client (lit "ping") call_fallback_default
                    initial FallbackExamples.no_choice eq_refl)).
    reflexivity.
  - apply (proj2 (@no_choice_raises_index_error FallbackExamples.frozen_clock
                    FallbackExamples.mute_client (lit "ping") cora_fallback_default
                    initial FallbackExamples.no_choice eq_refl)).
    reflexivity.
Defined.

End FallbackServiceMore.
